(** * Rettiwt-API: the tree-search extraction engine and the fetch pipeline

    A shallow embedding of [helper/JsonUtils.findByFilter], of
    [services/internal/FetcherService] ([checkAuthorization], [request],
    [extractData], [deserializeData], [fetch], [post]) and of
    [services/public/TweetService.details], with the properties the
    specification states about them.

    The code runs on the values [JSON.parse] produces, so the first part
    fixes those values and the ECMAScript operations the code applies to
    them: property access, truthiness, [typeof], and the loose equality
    [==] against a string with the conversions it performs. *)

From Stdlib Require Import ZArith List String Ascii Bool Lia PeanoNat.
From Stdlib Require Import Floats.
Import ListNotations.

Local Open Scope string_scope.
Local Open Scope list_scope.

(** ** Thrown values *)

(** What a [throw] carries.  [TypeError] is raised by the language itself
    ([Object.keys(null)], reading a property of [undefined], an object that
    cannot be converted to a primitive); [RESOURCE_NOT_ALLOWED] is the
    [Error] of [checkAuthorization]; [TransportError] is whatever the HTTP
    client or the guest login rejects with. *)
Inductive Exn : Type :=
| TypeError
| RESOURCE_NOT_ALLOWED
| TransportError (code : nat).

(** A computation that returns or throws. *)
Definition result (A : Type) : Type := (Exn + A)%type.

Definition ret {A : Type} (a : A) : result A := inr a.
Definition throw {A : Type} (e : Exn) : result A := inl e.

Definition bind {A B : Type} (m : result A) (f : A -> result B) : result B :=
  match m with
  | inl e => inl e
  | inr a => f a
  end.

Declare Scope result_scope.
Delimit Scope result_scope with result.
Notation "'do' x <- m ; k" := (bind m (fun x => k))
  (at level 10, x pattern, m at level 100, k at level 200) : result_scope.
Local Open Scope result_scope.

Section Iteration.
Context {A B : Type}.

(** [xs.map(f)] for a callback that may throw: the first throw aborts. *)
Definition mapM (f : A -> result B) : list A -> result (list B) :=
  fix go (xs : list A) : result (list B) :=
    match xs with
    | [] => ret []
    | x :: xs' => do y <- f x; do ys <- go xs'; ret (y :: ys)
    end.

(** [for (const x of xs) acc = body(acc, x)] for a body that may throw. *)
Definition for_of (body : B -> A -> result B) : list A -> B -> result B :=
  fix go (xs : list A) (acc : B) : result B :=
    match xs with
    | [] => ret acc
    | x :: xs' => do acc' <- body acc x; go xs' acc'
    end.
End Iteration.

(** ** JSON values *)

(** A parsed response body.  Numbers are IEEE binary64, as in the language.
    Strings are kept as their UTF-8 bytes.  An object is the list of its own
    entries in the order [Object.keys] and [Object.entries] report them. *)
#[warnings="-register-all"]
Inductive JSON : Type :=
| JNull
| JBool (b : bool)
| JNumber (n : float)
| JString (s : string)
| JArray (items : list JSON)
| JObject (entries : list (string * JSON)).

(** A JavaScript value as the code meets it: [None] is [undefined]. *)
Definition Value : Type := option JSON.

Definition undefined : Value := None.

(** The induction principle that reaches inside arrays and objects. *)
Section JSON_induction.
Variable P : JSON -> Prop.
Hypothesis Hnull : P JNull.
Hypothesis Hbool : forall b, P (JBool b).
Hypothesis Hnumber : forall n, P (JNumber n).
Hypothesis Hstring : forall s, P (JString s).
Hypothesis Harray : forall items, Forall P items -> P (JArray items).
Hypothesis Hobject :
  forall entries, Forall (fun kv => P (snd kv)) entries -> P (JObject entries).

Fixpoint JSON_nested_ind (j : JSON) : P j :=
  match j with
  | JNull => Hnull
  | JBool b => Hbool b
  | JNumber n => Hnumber n
  | JString s => Hstring s
  | JArray items =>
      Harray items
        ((fix go (l : list JSON) : Forall P l :=
            match l with
            | [] => Forall_nil P
            | x :: l' => Forall_cons x (JSON_nested_ind x) (go l')
            end) items)
  | JObject entries =>
      Hobject entries
        ((fix go (l : list (string * JSON)) : Forall (fun kv => P (snd kv)) l :=
            match l with
            | [] => Forall_nil _
            | kv :: l' =>
                Forall_cons (P := fun kv => P (snd kv)) kv
                  (JSON_nested_ind (snd kv)) (go l')
            end) entries)
  end.
End JSON_induction.

(** ** Own properties *)

(** The first entry stored under [key]. *)
Fixpoint lookup (key : string) (entries : list (string * JSON)) : Value :=
  match entries with
  | [] => None
  | (k, v) :: rest => if String.eqb k key then Some v else lookup key rest
  end.

(** [Object.keys(data).includes(key)] *)
Definition includes_key (key : string) (entries : list (string * JSON)) : bool :=
  existsb (fun kv => String.eqb (fst kv) key) entries.

(** [x.name] for the property names the services read ([__typename],
    [rest_id], [id], [tweet_results], [user_results], [result], [value]):
    none of them is inherited, so the read is an own-property read on an
    object and [undefined] on an array, a string, a number or a boolean.
    Reading a property of [null] or [undefined] throws. *)
Definition get (x : Value) (name : string) : result Value :=
  match x with
  | None => throw TypeError
  | Some JNull => throw TypeError
  | Some (JObject entries) => ret (lookup name entries)
  | Some _ => ret undefined
  end.

(** [x?.name] *)
Definition get_opt (x : Value) (name : string) : result Value :=
  match x with
  | None => ret undefined
  | Some JNull => ret undefined
  | _ => get x name
  end.

(** ** Numbers *)

(** The two conversions between Number and String that [==] and
    [Array.prototype.join] perform (ECMA-262, StringToNumber and
    Number::toString), on exact integer arithmetic. *)
Module Number.
Local Open Scope Z_scope.

(** The Number value for [num / den] (round to nearest, ties to even),
    for [0 <= num] and [0 < den]. *)
Definition of_ratio (neg : bool) (num den : Z) : float :=
  match num, den with
  | Zpos n, Zpos d =>
      SF2Prim (SFdiv prec emax (S754_finite neg n 0) (S754_finite false d 0))
  | _, _ => if neg then (-0)%float else 0%float
  end.

(** The Number value for [m * 10 ^ e]. *)
Definition of_decimal (neg : bool) (m e : Z) : float :=
  if 0 <=? e then of_ratio neg (m * 10 ^ e) 1 else of_ratio neg m (10 ^ (- e)).

Definition code (c : ascii) : Z := Z.of_nat (nat_of_ascii c).

Definition digit_of (radix : Z) (c : ascii) : option Z :=
  let n := code c in
  let d :=
    if (48 <=? n) && (n <=? 57) then n - 48
    else if (97 <=? n) && (n <=? 102) then n - 87
    else if (65 <=? n) && (n <=? 70) then n - 55
    else radix in
  if d <? radix then Some d else None.

(** Reads the longest run of digits at the head of [s]: the value it
    adds to [acc], how many digits were read, and what follows. *)
Fixpoint digits (radix acc count : Z) (s : string) : Z * Z * string :=
  match s with
  | EmptyString => (acc, count, s)
  | String c r =>
      match digit_of radix c with
      | Some d => digits radix (acc * radix + d) (count + 1) r
      | None => (acc, count, s)
      end
  end.

Definition sign_of (s : string) : bool * string :=
  match s with
  | String "+" r => (false, r)
  | String "-" r => (true, r)
  | _ => (false, s)
  end.

(** StrDecimalLiteral *)
Definition decimal_literal (s : string) : float :=
  let '(neg, body) := sign_of s in
  if String.eqb body "Infinity" then (if neg then neg_infinity else infinity)
  else
    let '(ip, ni, r1) := digits 10 0 0 body in
    let '(m, nf, r2) :=
      match r1 with
      | String "." r => digits 10 ip 0 r
      | _ => (ip, 0, r1)
      end in
    if ni + nf <? 1 then nan
    else
      let exponent : option (Z * string) :=
        match r2 with
        | String c r =>
            if (code c =? 101) || (code c =? 69) then
              let '(eneg, r') := sign_of r in
              let '(ev, ne, r3) := digits 10 0 0 r' in
              if ne <? 1 then None else Some (if eneg then - ev else ev, r3)
            else Some (0, r2)
        | EmptyString => Some (0, r2)
        end in
      match exponent with
      | Some (ev, EmptyString) => of_decimal neg m (ev - nf)
      | _ => nan
      end.

(** NonDecimalIntegerLiteral: [0x], [0o], [0b] and their capitals. *)
Definition radix_of (c : ascii) : option Z :=
  let n := code c in
  if (n =? 120) || (n =? 88) then Some 16
  else if (n =? 111) || (n =? 79) then Some 8
  else if (n =? 98) || (n =? 66) then Some 2
  else None.

(** StrNumericLiteral *)
Definition numeric_literal (s : string) : float :=
  match s with
  | String "0" (String c r) =>
      match radix_of c with
      | Some radix =>
          match digits radix 0 0 r with
          | (v, n, EmptyString) => if n <? 1 then nan else of_ratio false v 1
          | _ => nan
          end
      | None => decimal_literal s
      end
  | _ => decimal_literal s
  end.

(** The width in bytes of the StrWhiteSpaceChar at the head of [s], or 0:
    TAB, LF, VT, FF, CR, SP, then U+00A0, U+1680, U+2000 to U+200A,
    U+2028, U+2029, U+202F, U+205F, U+3000 and U+FEFF in UTF-8. *)
Definition ws_width (s : string) : nat :=
  match s with
  | EmptyString => 0%nat
  | String a r =>
      let x := code a in
      if ((9 <=? x) && (x <=? 13)) || (x =? 32) then 1%nat
      else
        match r with
        | EmptyString => 0%nat
        | String b r' =>
            let y := code b in
            if (x =? 194) && (y =? 160) then 2%nat
            else
              match r' with
              | EmptyString => 0%nat
              | String c _ =>
                  let z := code c in
                  if (x =? 225) && (y =? 154) && (z =? 128) then 3%nat
                  else if (x =? 226) && (y =? 128)
                          && (((128 <=? z) && (z <=? 138))
                              || (z =? 168) || (z =? 169) || (z =? 175))
                  then 3%nat
                  else if (x =? 226) && (y =? 129) && (z =? 159) then 3%nat
                  else if (x =? 227) && (y =? 128) && (z =? 128) then 3%nat
                  else if (x =? 239) && (y =? 187) && (z =? 191) then 3%nat
                  else 0%nat
              end
        end
  end.

Fixpoint skip (n : nat) (s : string) : string :=
  match n, s with
  | S n', String _ r => skip n' r
  | _, _ => s
  end.

Fixpoint drop_ws (fuel : nat) (s : string) : string :=
  match fuel with
  | O => s
  | S fuel' =>
      match ws_width s with
      | O => s
      | w => drop_ws fuel' (skip w s)
      end
  end.

(** Splits [s] before its first white space character. *)
Fixpoint take_literal (s : string) : string * string :=
  match s with
  | EmptyString => (EmptyString, EmptyString)
  | String c r =>
      match ws_width s with
      | O => let '(l, rest) := take_literal r in (String c l, rest)
      | _ => (EmptyString, s)
      end
  end.

(** StringToNumber: white space is trimmed, the empty string is [+0],
    anything that is not a StringNumericLiteral is [NaN]. *)
Definition StringToNumber (s : string) : float :=
  let s1 := drop_ws (String.length s) s in
  match s1 with
  | EmptyString => 0%float
  | _ =>
      let '(lit, rest) := take_literal s1 in
      match drop_ws (String.length rest) rest with
      | EmptyString => numeric_literal lit
      | _ => nan
      end
  end.

(** Number::equal, Number::sameValue aside: [NaN] equals nothing and the
    two zeros are equal. *)
Definition equal (x y : float) : bool := PrimFloat.eqb x y.

(** ToBoolean on a Number: [+0], [-0] and [NaN] are falsy. *)
Definition truthy (x : float) : bool :=
  PrimFloat.eqb x x && negb (PrimFloat.eqb x 0%float).

(** ToNumber on a Boolean. *)
Definition of_bool (b : bool) : float := if b then 1%float else 0%float.

(** *** Number::toString *)

Local Open Scope string_scope.
Local Open Scope Z_scope.

Fixpoint digits_of (fuel : nat) (n : Z) (acc : string) : string :=
  match fuel with
  | O => acc
  | S fuel' =>
      let acc' := String (ascii_of_nat (48 + Z.to_nat (n mod 10))) acc in
      if n <? 10 then acc' else digits_of fuel' (n / 10) acc'
  end.

(** The decimal digits of [n], for [0 <= n]. *)
Definition Z_to_string (n : Z) : string :=
  digits_of (S (Z.to_nat (Z.log2 n))) n "".

Fixpoint zeros (n : nat) : string :=
  match n with
  | O => ""
  | S n' => String "0" (zeros n')
  end.

Fixpoint strip_zeros_rev (s : string) : string :=
  match s with
  | String "0" r => strip_zeros_rev r
  | _ => s
  end.

Fixpoint rev_string (s acc : string) : string :=
  match s with
  | EmptyString => acc
  | String c r => rev_string r (String c acc)
  end.

Definition strip_trailing_zeros (s : string) : string :=
  rev_string (strip_zeros_rev (rev_string s "")) "".

(** The least [n] from [n] on with [num / den < 10 ^ n]. *)
Fixpoint magnitude (fuel : nat) (num den n : Z) : Z :=
  match fuel with
  | O => n
  | S fuel' =>
      let below :=
        if 0 <=? n then num <? 10 ^ n * den else num * 10 ^ (- n) <? den in
      if below then n else magnitude fuel' num den (n + 1)
  end.

(** Step 5 of Number::toString for [x = num / den]: the shortest [s]
    (with [k] digits, from [k] on) such that [s * 10 ^ (n - k)] reads back
    as [x], the one closest to [x] when two do.  Returns [s] and the
    exponent [n - k]. *)
Fixpoint shortest (fuel : nat) (x : float) (num den n k : Z) : Z * Z :=
  let p := n - k in
  let s_lo := if 0 <=? p then num / (den * 10 ^ p) else (num * 10 ^ (- p)) / den in
  let s_hi := s_lo + 1 in
  match fuel with
  | O => (s_lo, p)
  | S fuel' =>
      let ok_lo := equal (of_decimal false s_lo p) x in
      let ok_hi := equal (of_decimal false s_hi p) x in
      let lo_closer :=
        if 0 <=? p then 2 * num <=? (2 * s_lo + 1) * 10 ^ p * den
        else 2 * num * 10 ^ (- p) <=? (2 * s_lo + 1) * den in
      if ok_lo && (negb ok_hi || lo_closer) then (s_lo, p)
      else if ok_hi then (s_hi, p)
      else shortest fuel' x num den n (k + 1)
  end.

(** Steps 6 to 10: the digits [ds] with the decimal point after the
    first [n] of them. *)
Definition layout (ds : string) (n : Z) : string :=
  let k := Z.of_nat (String.length ds) in
  if (-5 <=? n) && (n <=? 21) then
    if k <=? n then ds ++ zeros (Z.to_nat (n - k))
    else if 0 <? n then
      substring 0 (Z.to_nat n) ds ++ "." ++ substring (Z.to_nat n) (Z.to_nat (k - n)) ds
    else "0." ++ zeros (Z.to_nat (- n)) ++ ds
  else
    let e := n - 1 in
    let tail := "e" ++ (if e <? 0 then "-" else "+") ++ Z_to_string (Z.abs e) in
    if k =? 1 then ds ++ tail
    else substring 0 1 ds ++ "." ++ substring 1 (Z.to_nat (k - 1)) ds ++ tail.

Definition finite_toString (m : positive) (e : Z) (x : float) : string :=
  let num := if 0 <=? e then Zpos m * 2 ^ e else Zpos m in
  let den := if 0 <=? e then 1 else 2 ^ (- e) in
  let n := magnitude 700 num den (-330) in
  let '(s, p) := shortest 17 x num den n 1 in
  let ds := Z_to_string s in
  layout (strip_trailing_zeros ds) (p + Z.of_nat (String.length ds)).

(** Number::toString in radix 10. *)
Definition toString (x : float) : string :=
  match Prim2SF x with
  | S754_nan => "NaN"
  | S754_zero _ => "0"
  | S754_infinity neg => if neg then "-Infinity" else "Infinity"
  | S754_finite neg m e =>
      (if neg then "-" else "") ++ finite_toString m e (PrimFloat.abs x)
  end.
End Number.

(** ** Conversions *)

(** ToBoolean *)
Definition truthy (x : Value) : bool :=
  match x with
  | None => false
  | Some JNull => false
  | Some (JBool b) => b
  | Some (JNumber n) => Number.truthy n
  | Some (JString s) => negb (String.eqb s "")
  | Some (JArray _) => true
  | Some (JObject _) => true
  end.

(** ToString.  An array is joined with commas, [null] elements giving the
    empty string ([Array.prototype.toString]).  A parsed object inherits
    [Object.prototype.toString] unless it has an own entry [toString]; an own
    entry is never callable, and then neither [toString] nor [valueOf] yields
    a primitive, which is a [TypeError]. *)
Fixpoint ToString (j : JSON) : result string :=
  match j with
  | JNull => ret "null"
  | JBool b => ret (if b then "true" else "false")
  | JNumber n => ret (Number.toString n)
  | JString s => ret s
  | JArray items =>
      do parts <- mapM (fun x => match x with
                                 | JNull => ret ""
                                 | _ => ToString x
                                 end) items;
      ret (String.concat "," parts)
  | JObject entries =>
      if includes_key "toString" entries then throw TypeError
      else ret "[object Object]"
  end.

(** [x == value] for a string [value] (IsLooselyEqual): [undefined] and
    [null] equal no string; a string is compared as it is; a number is
    compared with the number [value] reads as, a boolean after it became 1
    or 0; an array or object after it became a primitive, which is its
    string. *)
Definition looseEq (x : Value) (value : string) : result bool :=
  match x with
  | None => ret false
  | Some JNull => ret false
  | Some (JBool b) =>
      ret (Number.equal (Number.of_bool b) (Number.StringToNumber value))
  | Some (JNumber n) => ret (Number.equal n (Number.StringToNumber value))
  | Some (JString s) => ret (String.eqb s value)
  | Some (JArray items) =>
      do p <- ToString (JArray items); ret (String.eqb p value)
  | Some (JObject entries) =>
      do p <- ToString (JObject entries); ret (String.eqb p value)
  end.

(** * helper/JsonUtils *)

(** The test of [findByFilter] on an object:
    [Object.keys(data).includes(key) && data[key] == value]. *)
Definition filter_test (entries : list (string * JSON)) (key value : string)
  : result bool :=
  if includes_key key entries then looseEq (lookup key entries) value
  else ret false.

(** [findByFilter(data, key, value)].  [Array.isArray] selects the first
    branch; [typeof data == 'object'] holds of every object and of [null],
    on which [Object.keys] throws; the other values fall through and return
    the empty [res]. *)
Fixpoint findByFilter (data : JSON) (key value : string) : result (list JSON) :=
  match data with
  | JArray items =>
      do found <- mapM (fun item => findByFilter item key value) items;
      ret ([] ++ List.concat found)
  | JNull => throw TypeError
  | JObject entries =>
      do hit <- filter_test entries key value;
      let res := if hit then [data] else [] in
      for_of (fun res kv =>
                do found <- findByFilter (snd kv) key value;
                ret (res ++ found))
             entries res
  | JBool _ => ret []
  | JNumber _ => ret []
  | JString _ => ret []
  end.

(** * Collaborators of the fetcher service *)

(** Modelled from the spec: the resource kinds of [rettiwt-core]'s
    [EResourceType], whose declaration is not part of the sources; these are
    the members the services name. *)
Inductive EResourceType : Type :=
| CREATE_TWEET
| CREATE_RETWEET
| FAVORITE_TWEET
| LIST_TWEETS
| TWEET_DETAILS
| TWEET_SEARCH
| TWEET_FAVORITERS
| TWEET_RETWEETERS
| USER_DETAILS
| USER_DETAILS_BY_ID
| USER_FOLLOWERS
| USER_FOLLOWING
| USER_LIKES
| USER_TWEETS
| USER_TWEETS_AND_REPLIES.

Definition EResourceType_eqb (a b : EResourceType) : bool :=
  match a, b with
  | CREATE_TWEET, CREATE_TWEET
  | CREATE_RETWEET, CREATE_RETWEET
  | FAVORITE_TWEET, FAVORITE_TWEET
  | LIST_TWEETS, LIST_TWEETS
  | TWEET_DETAILS, TWEET_DETAILS
  | TWEET_SEARCH, TWEET_SEARCH
  | TWEET_FAVORITERS, TWEET_FAVORITERS
  | TWEET_RETWEETERS, TWEET_RETWEETERS
  | USER_DETAILS, USER_DETAILS
  | USER_DETAILS_BY_ID, USER_DETAILS_BY_ID
  | USER_FOLLOWERS, USER_FOLLOWERS
  | USER_FOLLOWING, USER_FOLLOWING
  | USER_LIKES, USER_LIKES
  | USER_TWEETS, USER_TWEETS
  | USER_TWEETS_AND_REPLIES, USER_TWEETS_AND_REPLIES => true
  | _, _ => false
  end.

Declare Scope resource_scope.
Delimit Scope resource_scope with resource.
Infix "==" := EResourceType_eqb (at level 70, no associativity) : resource_scope.
Notation "a != b" := (negb (EResourceType_eqb a b))
  (at level 70, no associativity) : resource_scope.
Local Open Scope resource_scope.

(** The resource specific arguments, an object such as [{ id: id }]. *)
Definition Args : Type := list (string * Value).

(** Modelled from the spec: the request descriptor [new Request(resourceType,
    args)] of [rettiwt-core], opaque but for the [endpoint] the service reads
    back. *)
Record Request : Type := new_Request {
  endpoint : EResourceType;
  params : Args
}.

(** [AuthCredential] of [rettiwt-auth]: built from the cookies of an API
    key, from a guest key, or obtained by a guest login. *)
Inductive AuthCredential : Type :=
| UserCredential (apiKey : string)
| GuestCredential (guestKey : string)
| GuestLogin.

(** What [axios] is called with. *)
Record AxiosRequestConfig : Type := {
  config : Request;
  headers : AuthCredential
}.

(** [types/RettiwtConfig]: the fields that decide the credential level and
    the logging; proxy, timeout and error handler belong to the transport. *)
Record IRettiwtConfig : Type := {
  apiKey : option string;
  guestKey : option string;
  logging : option bool
}.

(** Modelled from the spec: the entities of [models/public/Tweet] and
    [models/public/User], which are not part of the sources.  The spec makes
    deserialization a pure mapping that does not raise; an entity is kept as
    the fragment it was built from, its identifier being the fragment's
    [rest_id]. *)
Inductive Entity : Type :=
| Tweet (raw : JSON)
| User (raw : JSON).

Definition Entity_raw (e : Entity) : JSON :=
  match e with
  | Tweet raw => raw
  | User raw => raw
  end.

Definition Entity_id (e : Entity) : Value :=
  match Entity_raw e with
  | JObject entries => lookup "rest_id" entries
  | _ => undefined
  end.

(** Modelled from the spec: [models/public/CursoredData], not part of the
    sources: the entities in order, paired with the cursor to the next
    page. *)
Module CursoredData.
Record t : Type := new {
  list : Datatypes.list Entity;
  next : JSON
}.
End CursoredData.

(** What the service hands to [LogService.log]. *)
Inductive LogEntry : Type :=
| AUTHORIZATION (authenticated : bool)
| DESERIALIZE (type id : Value)
| FETCH (resourceType : EResourceType) (args : Args)
| POST (resourceType : EResourceType) (args : Args).

(** What leaves the process: a guest login or an HTTP request. *)
Inductive NetworkCall : Type :=
| GuestLoginCall
| HttpCall (request : AxiosRequestConfig).

(** * services/internal/FetcherService *)

(** The fields of the instance that the methods read; [cred] is the only
    one a method writes. *)
Record FetcherService : Type := {
  cred : option AuthCredential;
  isAuthenticated : bool;
  logger : bool
}.

(** The instance together with what its methods have done so far: the
    entries passed to the logger and the network calls issued, latest
    first. *)
Record State : Type := {
  this : FetcherService;
  logged : list LogEntry;
  network : list NetworkCall
}.

(** A method body: it reads and updates the state and returns or throws. *)
Definition Method (A : Type) : Type := State -> result A * State.

Definition pure {A : Type} (a : A) : Method A := fun st => (ret a, st).
Definition raise {A : Type} (e : Exn) : Method A := fun st => (throw e, st).
Definition lift {A : Type} (r : result A) : Method A := fun st => (r, st).

Definition andThen {A B : Type} (m : Method A) (k : A -> Method B) : Method B :=
  fun st =>
    match m st with
    | (inl e, st') => (inl e, st')
    | (inr a, st') => k a st'
    end.

Declare Scope method_scope.
Delimit Scope method_scope with method.
Notation "x <- m ;; k" := (andThen m (fun x => k))
  (at level 61, m at next level, right associativity) : method_scope.
Notation "m ;; k" := (andThen m (fun _ => k))
  (at level 61, right associativity) : method_scope.
Local Open Scope method_scope.

Definition read : Method FetcherService := fun st => (ret (this st), st).

(** Modelled from the spec: [this.logger.log(action, data)] of the
    [LogService] the fetcher imports, which is not part of the sources: a
    sink that is a no-op unless logging was asked for and that never alters
    control flow. *)
Definition log (entry : LogEntry) : Method unit :=
  fun st =>
    (ret tt,
     {| this := this st;
        logged := if logger (this st) then entry :: logged st else logged st;
        network := network st |}).

Definition set_cred (c : AuthCredential) : Method unit :=
  fun st =>
    (ret tt,
     {| this := {| cred := Some c;
                   isAuthenticated := isAuthenticated (this st);
                   logger := logger (this st) |};
        logged := logged st;
        network := network st |}).

Definition call (c : NetworkCall) : Method unit :=
  fun st =>
    (ret tt, {| this := this st; logged := logged st; network := c :: network st |}).

(** The [for ... of] loop of a method. *)
Fixpoint forEach {A : Type} (body : A -> Method unit) (xs : list A) : Method unit :=
  match xs with
  | [] => pure tt
  | x :: xs' => body x ;; forEach body xs'
  end.

(** The constructor: an API key makes the instance authenticated, a guest
    key gives it a guest credential, and without either the credential is
    left [undefined] until the first request. *)
Definition nonempty (s : option string) : bool :=
  match s with
  | Some s => negb (String.eqb s "")
  | None => false
  end.

Definition new_FetcherService (config : option IRettiwtConfig) : FetcherService :=
  let key := match config with Some c => apiKey c | None => None end in
  let guest := match config with Some c => guestKey c | None => None end in
  {| cred :=
       if nonempty key then option_map UserCredential key
       else if nonempty guest then option_map GuestCredential guest
       else None;
     isAuthenticated := if nonempty key then true else false;
     logger := match config with
               | Some c => match logging c with Some b => b | None => false end
               | None => false
               end |}.

Definition start (config : option IRettiwtConfig) : State :=
  {| this := new_FetcherService config; logged := []; network := [] |}.

Section FetcherService.
(** The world outside the process.  [axios] answers a request with the
    response body or rejects; [getGuestCredential] is the guest login of
    [rettiwt-auth]; [handle] is the error handler of the instance, which
    may itself throw a more specific error. *)
Variable axios : AxiosRequestConfig -> result JSON.
Variable getGuestCredential : result AuthCredential.
Variable handle : Exn -> result unit.

(** [checkAuthorization(resourceType)] *)
Definition checkAuthorization (resourceType : EResourceType) : Method unit :=
  self <- read ;;
  log (AUTHORIZATION (isAuthenticated self)) ;;
  if (resourceType != TWEET_DETAILS)
     && (resourceType != USER_DETAILS)
     && (resourceType != USER_TWEETS)
     && Bool.eqb (isAuthenticated self) false
  then raise RESOURCE_NOT_ALLOWED
  else pure tt.

(** [request(config)], returning the body [res.data] that both callers
    take from the response. *)
Definition request (config : Request) : Method JSON :=
  checkAuthorization (endpoint config) ;;
  self <- read ;;
  credential <-
    match cred self with
    | Some c => pure c
    | None =>
        call GuestLoginCall ;;
        c <- lift getGuestCredential ;;
        set_cred c ;;
        pure c
    end ;;
  let axiosRequest := {| config := config; headers := credential |} in
  call (HttpCall axiosRequest) ;;
  match axios axiosRequest with
  | inr data => pure data
  | inl error => lift (handle error) ;; raise error
  end.

(** [extractData(data, type)]: the fragments [required] and the cursor
    [next]. *)
Definition extractData (data : JSON) (type : EResourceType)
  : result (list Value * Value) :=
  do required <-
    (if type == TWEET_DETAILS then
       do found <- findByFilter data "__typename" "Tweet";
       ret (map Some found)
     else if (type == USER_DETAILS) || (type == USER_DETAILS_BY_ID) then
       do found <- findByFilter data "__typename" "User";
       ret (map Some found)
     else if (type == TWEET_SEARCH)
             || (type == USER_LIKES)
             || (type == LIST_TWEETS)
             || (type == USER_TWEETS)
             || (type == USER_TWEETS_AND_REPLIES) then
       do found <- findByFilter data "__typename" "TimelineTweet";
       mapM (fun item =>
               do tweet_results <- get (Some item) "tweet_results";
               get tweet_results "result")
            found
     else if (type == TWEET_FAVORITERS)
             || (type == TWEET_RETWEETERS)
             || (type == USER_FOLLOWERS)
             || (type == USER_FOLLOWING) then
       do found <- findByFilter data "__typename" "TimelineUser";
       mapM (fun item =>
               do user_results <- get (Some item) "user_results";
               get user_results "result")
            found
     else ret []);
  do cursors <- findByFilter data "cursorType" "Bottom";
  do next <- get_opt (hd_error cursors) "value";
  ret (required, next).

(** The conjunction [a && b] of the language: [b] is evaluated only when
    [a] is truthy. *)
Definition and_also (a b : result bool) : result bool :=
  do x <- a; if x then b else ret false.

(** [item && item.__typename == tag] *)
Definition tagged (item : Value) (tag : string) : result bool :=
  and_also (ret (truthy item))
           (do t <- get item "__typename"; looseEq t tag).

(** [item && item.__typename == 'Tweet' && item.rest_id] *)
Definition valid_raw_tweet (item : Value) : result bool :=
  and_also (tagged item "Tweet")
           (do rest_id <- get item "rest_id"; ret (truthy rest_id)).

(** [item && item.__typename == 'User' && item.rest_id && item.id] *)
Definition valid_raw_user (item : Value) : result bool :=
  and_also (and_also (tagged item "User")
                     (do rest_id <- get item "rest_id"; ret (truthy rest_id)))
           (do id <- get item "id"; ret (truthy id)).

(** One turn of the loop of [deserializeData]: what it logs and what it
    pushes. *)
Definition deserialize_item (item : Value) : result (list LogEntry * list Entity) :=
  do is_tweet <- valid_raw_tweet item;
  if is_tweet then
    do type <- get item "__typename";
    do id <- get item "rest_id";
    ret ([DESERIALIZE type id],
         match item with Some raw => [Tweet raw] | None => [] end)
  else
    do is_user <- valid_raw_user item;
    if is_user then
      do type <- get item "__typename";
      do id <- get item "rest_id";
      ret ([DESERIALIZE type id],
           match item with Some raw => [User raw] | None => [] end)
    else ret ([], []).

(** [deserializeData(extractedData, next)].  The default [next = ''] of
    the parameter replaces [undefined] and nothing else. *)
Fixpoint deserialize_loop (extractedData : list Value) (deserializedList : list Entity)
  : Method (list Entity) :=
  match extractedData with
  | [] => pure deserializedList
  | item :: rest =>
      step <- lift (deserialize_item item) ;;
      forEach log (fst step) ;;
      deserialize_loop rest (deserializedList ++ snd step)
  end.

Definition deserializeData (extractedData : list Value) (next : Value)
  : Method CursoredData.t :=
  let next := match next with Some n => n | None => JString "" end in
  deserializedList <- deserialize_loop extractedData [] ;;
  pure (CursoredData.new deserializedList next).

(** [fetch(resourceType, args)] *)
Definition fetch (resourceType : EResourceType) (args : Args) : Method CursoredData.t :=
  log (FETCH resourceType args) ;;
  let request_ := new_Request resourceType args in
  res <- request request_ ;;
  extractedData <- lift (extractData res resourceType) ;;
  deserializeData (fst extractedData) (snd extractedData).

(** [post(resourceType, args)] *)
Definition post (resourceType : EResourceType) (args : Args) : Method bool :=
  log (POST resourceType args) ;;
  let request_ := new_Request resourceType args in
  request request_ ;;
  pure true.

(** * services/public/TweetService *)

(** [details(id)]: [data.list[0]], which is [undefined] on an empty
    list. *)
Definition details (id : string) : Method (option Entity) :=
  data <- fetch TWEET_DETAILS [("id", Some (JString id))] ;;
  pure (hd_error (CursoredData.list data)).
End FetcherService.


(** * The traversal the search is specified against *)

(** Every node reachable from [j] through array elements and object
    values, [j] first, in traversal order: a node before its descendants,
    siblings in the order of the document. *)
Fixpoint nodes (j : JSON) : list JSON :=
  j :: match j with
       | JArray items => flat_map nodes items
       | JObject entries => flat_map (fun kv => nodes (snd kv)) entries
       | _ => []
       end.

(** The node is an object whose own field [key] is loosely equal to
    [value]. *)
Definition matches (key value : string) (n : JSON) : bool :=
  match n with
  | JObject entries =>
      match filter_test entries key value with
      | inr hit => hit
      | inl _ => false
      end
  | _ => false
  end.

(** The search throws at the node: it is [null], or an object whose field
    [key] cannot be converted to a primitive. *)
Definition raises (key value : string) (n : JSON) : bool :=
  match n with
  | JNull => true
  | JObject entries =>
      match filter_test entries key value with
      | inr _ => false
      | inl _ => true
      end
  | _ => false
  end.

(** The search as the specification words it: the objects among the nodes
    whose own field [key] has a string form equal to [value]. *)
Definition stringifies_to (x : Value) (value : string) : bool :=
  match x with
  | Some j =>
      match ToString j with
      | inr s => String.eqb s value
      | inl _ => false
      end
  | None => false
  end.

Definition search_spec (T : JSON) (key value : string) : list JSON :=
  filter (fun n =>
            match n with
            | JObject entries => stringifies_to (lookup key entries) value
            | _ => false
            end)
         (nodes T).

(** What [findByFilter] computes, read off the traversal: it throws when
    some node makes it throw, and otherwise keeps the matching nodes in
    traversal order. *)
Definition searched (key value : string) (T : JSON) : result (list JSON) :=
  if existsb (raises key value) (nodes T) then throw TypeError
  else ret (filter (matches key value) (nodes T)).

(** The number a raw numeric or boolean field is compared as. *)
Definition numeric_value (x : JSON) : option float :=
  match x with
  | JNumber n => Some n
  | JBool b => Some (Number.of_bool b)
  | _ => None
  end.

(** * What the methods return *)

(** The entities the loop of [deserializeData] pushes. *)
Definition deserialized (extractedData : list Value) : result (list Entity) :=
  do steps <- mapM deserialize_item extractedData;
  ret (flat_map snd steps).

(** The cursor after the default of the parameter [next]. *)
Definition default_next (next : Value) : JSON :=
  match next with
  | Some n => n
  | None => JString ""
  end.

(** The kinds [checkAuthorization] lets a guest request. *)
Definition guest_allowed (type : EResourceType) : bool :=
  (type == TWEET_DETAILS) || (type == USER_DETAILS) || (type == USER_TWEETS).

(** The request is refused: the kind is not guest-allowed and the instance
    holds no API key. *)
Definition denied (self : FetcherService) (type : EResourceType) : bool :=
  negb (guest_allowed type) && negb (isAuthenticated self).

Section Outcome.
(** The world outside the process, as in [FetcherService]. *)
Variable axios : AxiosRequestConfig -> result JSON.
Variable getGuestCredential : result AuthCredential.
Variable handle : Exn -> result unit.

(** The credential a request goes out with. *)
Definition credential (self : FetcherService) : result AuthCredential :=
  match cred self with
  | Some c => ret c
  | None => getGuestCredential
  end.

(** The answer of the transport, after the error handler saw a
    rejection. *)
Definition respond (config : Request) (c : AuthCredential) : result JSON :=
  match axios {| config := config; headers := c |} with
  | inr data => ret data
  | inl error => do _ <- handle error; throw error
  end.

(** The network calls one request issues, latest first. *)
Definition issued (self : FetcherService) (config : Request) : list NetworkCall :=
  if denied self (endpoint config) then []
  else
    match cred self with
    | Some c => [HttpCall {| config := config; headers := c |}]
    | None =>
        match getGuestCredential with
        | inr c => [HttpCall {| config := config; headers := c |}; GuestLoginCall]
        | inl _ => [GuestLoginCall]
        end
    end.

(** What [fetch] returns, as a function of the instance. *)
Definition fetched (self : FetcherService) (type : EResourceType) (args : Args)
  : result CursoredData.t :=
  if denied self type then throw RESOURCE_NOT_ALLOWED
  else
    do c <- credential self;
    do data <- respond (new_Request type args) c;
    do extractedData <- extractData data type;
    do entities <- deserialized (fst extractedData);
    ret (CursoredData.new entities (default_next (snd extractedData))).

End Outcome.

(** The kinds for which [extractData] takes the matched fragments as the
    entities themselves, and of which the public services return the first
    entity: the lookups of a single post or account. *)
Definition single_entity_lookup (type : EResourceType) : bool :=
  (type == TWEET_DETAILS) || (type == USER_DETAILS) || (type == USER_DETAILS_BY_ID).

(** The guest-allowed set as the specification words it: the single-entity
    lookups and a user's primary timeline. *)
Definition guest_allowed_spec (type : EResourceType) : bool :=
  single_entity_lookup type || (type == USER_TWEETS).

(** * Fragments and the entities they give *)

(** The own field [name] of a fragment, [undefined] when the fragment is
    not an object or lacks it. *)
Definition field (item : Value) (name : string) : Value :=
  match item with
  | Some (JObject entries) => lookup name entries
  | _ => undefined
  end.

(** [x == value] when the comparison returns. *)
Definition loosely (x : Value) (value : string) : bool :=
  match looseEq x value with
  | inr b => b
  | inl _ => false
  end.

(** [x] can be compared with a string: it is not an array or object that
    fails to convert to a primitive. *)
Definition convertible (x : Value) : bool :=
  match looseEq x "" with
  | inr _ => true
  | inl _ => false
  end.

(** The fragment carries the post tag and a non-empty identifier. *)
Definition is_post (item : Value) : bool :=
  truthy item && loosely (field item "__typename") "Tweet"
  && truthy (field item "rest_id").

(** The fragment carries the account tag, a non-empty identifier and the
    second identifier [id]. *)
Definition is_account (item : Value) : bool :=
  truthy item && loosely (field item "__typename") "User"
  && truthy (field item "rest_id") && truthy (field item "id").

Definition qualifies (item : Value) : bool := is_post item || is_account item.

(** The entity a fragment gives, if any. *)
Definition entity_of (item : Value) : list Entity :=
  match item with
  | Some raw =>
      if is_post item then [Tweet raw]
      else if is_account item then [User raw]
      else []
  | None => []
  end.


(** The tag of the fragment can be compared; nothing is asked of a falsy
    fragment, whose tag is not read. *)
Definition comparable (item : Value) : bool :=
  negb (truthy item) || convertible (field item "__typename").

(** [item.results.result]: the projection of a container fragment. *)
Definition unwrap (results : string) (item : JSON) : result Value :=
  do inner <- get (Some item) results;
  get inner "result".

(** The tag of the entity a lookup kind searches for. *)
Definition entity_tag (type : EResourceType) : option string :=
  if type == TWEET_DETAILS then Some "Tweet"
  else if (type == USER_DETAILS) || (type == USER_DETAILS_BY_ID) then Some "User"
  else None.

(** The tag of the container a timeline or connection kind searches for,
    and the field that wraps the inner entity. *)
Definition container (type : EResourceType) : option (string * string) :=
  if (type == TWEET_SEARCH) || (type == USER_LIKES) || (type == LIST_TWEETS)
     || (type == USER_TWEETS) || (type == USER_TWEETS_AND_REPLIES)
  then Some ("TimelineTweet", "tweet_results")
  else if (type == TWEET_FAVORITERS) || (type == TWEET_RETWEETERS)
          || (type == USER_FOLLOWERS) || (type == USER_FOLLOWING)
  then Some ("TimelineUser", "user_results")
  else None.

(** The list [required] of [extractData]. *)
Definition fragments (data : JSON) (type : EResourceType) : result (list Value) :=
  match entity_tag type, container type with
  | Some tag, _ =>
      do found <- findByFilter data "__typename" tag; ret (map Some found)
  | None, Some (tag, results) =>
      do found <- findByFilter data "__typename" tag; mapM (unwrap results) found
  | None, None => ret []
  end.

(** The cursor markers of the body, in traversal order. *)
Definition bottom_cursors (data : JSON) : list JSON :=
  filter (matches "cursorType" "Bottom") (nodes data).

(** The [value] field of the first cursor marker, [undefined] without
    one. *)
Definition first_cursor_value (data : JSON) : Value :=
  match bottom_cursors data with
  | [] => undefined
  | first :: _ => field (Some first) "value"
  end.

(** * Response bodies and instances of the scenarios *)

(** A post that quotes a post, next to an account: both posts are found,
    the outer one first. *)
Definition quoting_post : JSON :=
  JObject [("__typename", JString "Tweet"); ("rest_id", JString "1");
           ("quoted_status_result",
            JObject [("result",
                      JObject [("__typename", JString "Tweet");
                               ("rest_id", JString "2")])])].

(** A post, an account without [id], a well-formed account, and an
    unwrapped container that had no inner entity. *)
Definition mixed_fragments : list Value :=
  [Some (JObject [("__typename", JString "Tweet"); ("rest_id", JString "123")]);
   Some (JObject [("__typename", JString "User"); ("rest_id", JString "7")]);
   Some (JObject [("__typename", JString "User"); ("rest_id", JString "8");
                  ("id", JString "VXNlcjo4")]);
   undefined].

Definition post_fragment (rest_id : string) : JSON :=
  JObject [("__typename", JString "Tweet"); ("rest_id", JString rest_id);
           ("text", JString "hi")].

Definition timeline_entry (inner : JSON) : JSON :=
  JObject [("content",
            JObject [("__typename", JString "TimelineTweet");
                     ("tweet_results", JObject [("result", inner)])])].

Definition cursor_entry (value : string) : JSON :=
  JObject [("content",
            JObject [("cursorType", JString "Bottom"); ("value", JString value)])].

(** Scenario A: the body of a single-post lookup. *)
Definition lookup_body : JSON :=
  JObject [("data", JObject [("tweet", JObject [("result", post_fragment "123")])])].

(** Scenario B: two posts in a timeline, then the bottom cursor. *)
Definition timeline_body : JSON :=
  JObject [("data",
            JObject [("entries",
                      JArray [timeline_entry (post_fragment "1");
                              timeline_entry (post_fragment "2");
                              cursor_entry "abc|"])])].

(** A single-post lookup whose body also carries a cursor marker. *)
Definition lookup_body_with_cursor : JSON :=
  JObject [("data", JObject [("tweet", JObject [("result", post_fragment "123")])]);
           ("cursor", JObject [("cursorType", JString "Bottom");
                               ("value", JString "next-page")])].

(** A timeline in which one container lacks [tweet_results]. *)
Definition timeline_body_broken : JSON :=
  JArray [timeline_entry (post_fragment "1");
          JObject [("__typename", JString "TimelineTweet")]].

(** A timeline in which one container wraps no inner entity. *)
Definition timeline_body_hollow : JSON :=
  JArray [timeline_entry (post_fragment "1");
          JObject [("__typename", JString "TimelineTweet");
                   ("tweet_results", JObject [])]].


(** A body without any post, and one whose only post has no [rest_id]. *)
Definition empty_body : JSON := JObject [("data", JObject [])].

Definition anonymous_post_body : JSON :=
  JObject [("data", JObject [("tweet",
     JObject [("result", JObject [("__typename", JString "Tweet")])])])].

(** An instance holding an API key, and a transport that answers every
    request with [body]. *)
Definition user_instance : State :=
  start (Some {| apiKey := Some "a2V5"; guestKey := None; logging := None |}).

Definition answering (body : JSON) : AxiosRequestConfig -> result JSON :=
  fun _ => ret body.

Definition no_guest_login : result AuthCredential := throw (TransportError 0).

Definition rethrow : Exn -> result unit := fun _ => ret tt.

(** * helper/JsonUtils: [normalizeText] and [findKeyByValue] *)

Definition full_stop : ascii := "."%char.

Definition line_feed : ascii := ascii_of_nat 10.

(** [text.replace(/\n/g, '.')] *)
Fixpoint replace_newlines (text : string) : string :=
  match text with
  | EmptyString => EmptyString
  | String c r =>
      String (if Ascii.eqb c line_feed then full_stop else c) (replace_newlines r)
  end.

(** The width in bytes of the character at the head of [s] when it
    belongs to the class [[\s+.\s+]], a white space character, a plus sign or
    a full stop, and 0 otherwise. *)
Definition class_width (s : string) : nat :=
  match s with
  | EmptyString => 0
  | String c _ =>
      if Ascii.eqb c full_stop || Ascii.eqb c "+"%char then 1
      else Number.ws_width s
  end.

(** What is left of [s] after its longest prefix of characters of the
    class. *)
Fixpoint drop_class (fuel : nat) (s : string) : string :=
  match fuel with
  | O => s
  | S fuel' =>
      match class_width s with
      | O => s
      | w => drop_class fuel' (Number.skip w s)
      end
  end.

(** [s.replace(/[.]+[\s+.\s+]+/g, '. ')]: a match starts at a full stop
    that a character of the class follows, and takes the whole run of
    characters of the class from there; the scan goes on after it. *)
Fixpoint collapse (fuel : nat) (s : string) : string :=
  match fuel with
  | O => s
  | S fuel' =>
      match s with
      | EmptyString => EmptyString
      | String c r =>
          if Ascii.eqb c full_stop then
            match class_width r with
            | O => String c (collapse fuel' r)
            | _ =>
                String full_stop
                  (String " " (collapse fuel' (drop_class (String.length r) r)))
            end
          else String c (collapse fuel' r)
      end
  end.

(** [s.endsWith('.')] *)
Fixpoint ends_with_full_stop (s : string) : bool :=
  match s with
  | EmptyString => false
  | String c EmptyString => Ascii.eqb c full_stop
  | String _ r => ends_with_full_stop r
  end.

(** [normalizeText(text)] *)
Definition normalizeText (text : string) : string :=
  let replaced := replace_newlines text in
  let normalizedText := collapse (String.length replaced) replaced in
  if ends_with_full_stop normalizedText then normalizedText
  else (normalizedText ++ ".")%string.

(** The character [c] occurs in [s]. *)
Fixpoint occurs (c : ascii) (s : string) : bool :=
  match s with
  | EmptyString => false
  | String a r => Ascii.eqb a c || occurs c r
  end.

(** Two full stops stand next to each other in [s]. *)
Fixpoint doubled_full_stop (s : string) : bool :=
  match s with
  | String a ((String b _) as r) =>
      (Ascii.eqb a full_stop && Ascii.eqb b full_stop) || doubled_full_stop r
  | _ => false
  end.

(** [s] begins with a full stop. *)
Definition starts_with_full_stop (s : string) : bool :=
  match s with
  | String c _ => Ascii.eqb c full_stop
  | EmptyString => false
  end.

Section Filtering.
Context {A : Type}.

(** [xs.filter(p)] for a callback that may throw: every element is
    tested, and the first throw aborts. *)
Definition filterM (p : A -> result bool) : list A -> result (list A) :=
  fix go (xs : list A) : result (list A) :=
    match xs with
    | [] => ret []
    | x :: xs' =>
        do keep <- p x; do kept <- go xs'; ret (if keep then x :: kept else kept)
    end.
End Filtering.

(** The UTF-16 code units of a string, each as the string of that one
    unit; the two surrogates of a character outside the basic plane are
    written in the three-byte form of their code. *)
Definition unit_string (u : Z) : string :=
  String (ascii_of_nat (Z.to_nat (224 + u / 4096)))
    (String (ascii_of_nat (Z.to_nat (128 + (u / 64) mod 64)))
       (String (ascii_of_nat (Z.to_nat (128 + u mod 64))) EmptyString)).

Definition surrogates (a b c d : ascii) : list string :=
  let cp := ((Number.code a mod 8) * 262144 + (Number.code b mod 64) * 4096
             + (Number.code c mod 64) * 64 + Number.code d mod 64 - 65536)%Z in
  [unit_string (55296 + cp / 1024); unit_string (56320 + cp mod 1024)].

Fixpoint code_units (s : string) : list string :=
  match s with
  | EmptyString => []
  | String a r =>
      if (Number.code a <? 128)%Z then String a EmptyString :: code_units r
      else
        match r with
        | EmptyString => [s]
        | String b r1 =>
            if (Number.code a <? 224)%Z
            then String a (String b EmptyString) :: code_units r1
            else
              match r1 with
              | EmptyString => [s]
              | String c r2 =>
                  if (Number.code a <? 240)%Z
                  then String a (String b (String c EmptyString)) :: code_units r2
                  else
                    match r2 with
                    | EmptyString => [s]
                    | String d r3 => surrogates a b c d ++ code_units r3
                    end
              end
        end
  end.

(** The entries of an array-like value: each element under its index. *)
Fixpoint indexed (i : Z) (items : list JSON) : list (string * JSON) :=
  match items with
  | [] => []
  | x :: rest => (Number.Z_to_string i, x) :: indexed (i + 1) rest
  end.

(** [Object.entries(data)]: the own entries of an object, the elements of
    an array and the code units of a string under their indices, nothing for
    a number or a boolean, and a [TypeError] for [null]. *)
Definition Object_entries (data : JSON) : result (list (string * JSON)) :=
  match data with
  | JNull => throw TypeError
  | JBool _ => ret []
  | JNumber _ => ret []
  | JString s => ret (indexed 0 (map JString (code_units s)))
  | JArray items => ret (indexed 0 items)
  | JObject entries => ret entries
  end.

(** [findKeyByValue(data, value)]: [kvPair] is an entry or [undefined],
    and an entry is truthy. *)
Definition findKeyByValue (data : JSON) (value : string) : result (option string) :=
  do entries <- Object_entries data;
  do matching <- filterM (fun kv => looseEq (Some (snd kv)) value) entries;
  let kvPair := hd_error matching in
  match kvPair with
  | Some kv => ret (Some (fst kv))
  | None => ret None
  end.

(** * services/public/TweetService: the other methods that only fetch or
    post *)

Section TweetService.
Variable axios : AxiosRequestConfig -> result JSON.
Variable getGuestCredential : result AuthCredential.
Variable handle : Exn -> result unit.

(** [favoriters(tweetId, count, cursor)]; [count] and [cursor] are
    [undefined] when left out. *)
Definition favoriters (tweetId : string) (count cursor : Value)
  : Method CursoredData.t :=
  data <- fetch axios getGuestCredential handle TWEET_FAVORITERS
            [("id", Some (JString tweetId)); ("count", count); ("cursor", cursor)] ;;
  pure data.

(** [retweeters(tweetId, count, cursor)] *)
Definition retweeters (tweetId : string) (count cursor : Value)
  : Method CursoredData.t :=
  data <- fetch axios getGuestCredential handle TWEET_RETWEETERS
            [("id", Some (JString tweetId)); ("count", count); ("cursor", cursor)] ;;
  pure data.

(** [tweet(tweetText)] *)
Definition tweet (tweetText : string) : Method bool :=
  data <- post axios getGuestCredential handle CREATE_TWEET
            [("tweetText", Some (JString tweetText))] ;;
  pure data.

(** [favorite(tweetId)] *)
Definition favorite (tweetId : string) : Method bool :=
  data <- post axios getGuestCredential handle FAVORITE_TWEET
            [("id", Some (JString tweetId))] ;;
  pure data.

(** [retweet(tweetId)] *)
Definition retweet (tweetId : string) : Method bool :=
  data <- post axios getGuestCredential handle CREATE_RETWEET
            [("id", Some (JString tweetId))] ;;
  pure data.
End TweetService.

(** * Vocabulary of the further properties *)

(** No node of the tree is [null] and no object of the tree has an own
    entry [toString]. *)
Definition plain_node (n : JSON) : bool :=
  match n with
  | JNull => false
  | JObject entries => negb (includes_key "toString" entries)
  | _ => true
  end.

Definition plain (T : JSON) : bool := forallb plain_node (nodes T).

(** The node is [null]. *)
Definition is_null (n : JSON) : bool :=
  match n with
  | JNull => true
  | _ => false
  end.

(** The node is an object with an own entry [key]. *)
Definition has_key (key : string) (n : JSON) : bool :=
  match n with
  | JObject entries => includes_key key entries
  | _ => false
  end.

(** The instance after a request that went out with a fresh guest
    credential [c], and otherwise as it was. *)
Definition with_cred (self : FetcherService) (c : AuthCredential) : FetcherService :=
  {| cred := Some c;
     isAuthenticated := isAuthenticated self;
     logger := logger self |}.

(** The values of the entries are strings. *)
Definition string_valued (entries : list (string * JSON)) : Prop :=
  Forall (fun kv => exists s, snd kv = JString s) entries.

(** An enumeration as an object: its members under their names. *)
Definition reactions : list (string * JSON) :=
  [("LIKE", JString "like"); ("REPLY", JString "reply"); ("QUOTE", JString "quote")].

(** The instance after one request of kind [type]: a guest login that
    succeeded has stored its credential. *)
Definition after_request
  (g : result AuthCredential) (self : FetcherService) (type : EResourceType)
  : FetcherService :=
  if denied self type then self
  else
    match cred self, g with
    | None, inr c => with_cred self c
    | _, _ => self
    end.

(** The HTTP call one request of kind [type] makes, if it makes one. *)
Definition http_calls
  (g : result AuthCredential) (self : FetcherService) (config : Request)
  : list NetworkCall :=
  if denied self (endpoint config) then []
  else
    match credential g self with
    | inr c => [HttpCall {| config := config; headers := c |}]
    | inl _ => []
    end.

(** A transport that rejects every request with [e], and an error
    handler that throws a more specific error. *)
Definition rejecting (e : Exn) : AxiosRequestConfig -> result JSON :=
  fun _ => throw e.

Definition classifying : Exn -> result unit :=
  fun _ => throw (TransportError 429).

(** The configuration with the given keys and no logging. *)
Definition keys (api guest : option string) : option IRettiwtConfig :=
  Some {| apiKey := api; guestKey := guest; logging := None |}.

(** The body of a lookup whose post carries no [rest_id] and quotes a
    post that does. *)
Definition quoting_body : JSON :=
  JObject [("data", JObject [("tweet", JObject [("result",
     JObject [("__typename", JString "Tweet");
              ("quoted_status_result",
               JObject [("result", post_fragment "9")])])])])].

(** The HTTP calls among network calls. *)
Definition is_http (c : NetworkCall) : bool :=
  match c with
  | HttpCall _ => true
  | GuestLoginCall => false
  end.

(** The body of a timeline page that holds a cursor marker and, in another
    field, a [null]. *)
Definition null_cursor_body : JSON :=
  JObject [("a", JNull);
           ("cursor", JObject [("cursorType", JString "Bottom");
                               ("value", JString "x")])].

(** A call of one of the two methods the public services are built on. *)
Inductive Invocation : Type :=
| Fetching (resourceType : EResourceType) (args : Args)
| Posting (resourceType : EResourceType) (args : Args).

Definition requested (i : Invocation) : Request :=
  match i with
  | Fetching type args | Posting type args => new_Request type args
  end.

Section Turns.
Variable axios : AxiosRequestConfig -> result JSON.
Variable getGuestCredential : result AuthCredential.
Variable handle : Exn -> result unit.

(** The state once the call has settled, whether it returned or threw. *)
Definition settled (i : Invocation) (st : State) : State :=
  match i with
  | Fetching type args => snd (fetch axios getGuestCredential handle type args st)
  | Posting type args => snd (post axios getGuestCredential handle type args st)
  end.

(** The state once the calls have settled one after the other, each
    awaited before the next is made. *)
Definition in_turn (calls : list Invocation) (st : State) : State :=
  fold_left (fun st' i => settled i st') calls st.

End Turns.

(** The HTTP calls that [calls] send with the credential [c], latest
    first: one for each call that passes the check. *)
Definition sent
  (self : FetcherService) (c : AuthCredential) (calls : list Invocation)
  : list NetworkCall :=
  flat_map (fun i => if denied self (endpoint (requested i)) then []
                     else [HttpCall {| config := requested i; headers := c |}])
           (rev calls).

(** * Properties of the tree search *)

(** ** What throws *)

Lemma mapM_throws {A B : Type} (f : A -> result B) (xs : list A) (e : Exn) :
  Forall (fun x => forall e, f x = throw e -> e = TypeError) xs ->
  mapM f xs = throw e -> e = TypeError.
Proof.
  induction 1 as [|x l Hx _ IHl]; cbn [mapM]; [discriminate|].
  unfold bind at 1. destruct (f x) as [e'|y] eqn:Hfx.
  - intros Heq. inversion Heq. subst. now apply Hx.
  - unfold bind at 1. fold (mapM f l). destruct (mapM f l) as [e'|ys] eqn:Hl.
    + intros Heq. inversion Heq. subst. now apply IHl.
    + discriminate.
Qed.

Lemma ToString_throws (j : JSON) (e : Exn) :
  ToString j = throw e -> e = TypeError.
Proof.
  revert e. induction j using JSON_nested_ind; intros e; cbn [ToString];
    try discriminate.
  - unfold bind at 1.
    match goal with
    | |- context [mapM ?f items] => destruct (mapM f items) as [e'|parts] eqn:Hparts
    end; [|discriminate].
    intros Heq. inversion Heq. subst.
    eapply mapM_throws; [|exact Hparts].
    eapply Forall_impl; [|exact H].
    intros [] IH e'; try discriminate; auto.
  - destruct (includes_key "toString" entries); [|discriminate].
    intros Heq. inversion Heq. reflexivity.
Qed.

Lemma looseEq_throws (x : Value) (value : string) (e : Exn) :
  looseEq x value = throw e -> e = TypeError.
Proof.
  destruct x as [[| | | |items|entries]|]; cbn [looseEq]; try discriminate.
  - unfold bind. destruct (ToString (JArray items)) eqn:H; [|discriminate].
    intros Heq. inversion Heq. subst. exact (ToString_throws _ _ H).
  - unfold bind. destruct (ToString (JObject entries)) eqn:H; [|discriminate].
    intros Heq. inversion Heq. subst. exact (ToString_throws _ _ H).
Qed.

Lemma filter_test_throws
  (entries : list (string * JSON)) (key value : string) (e : Exn) :
  filter_test entries key value = throw e -> e = TypeError.
Proof.
  unfold filter_test. destruct (includes_key key entries); [|discriminate].
  apply looseEq_throws.
Qed.

(** ** The search is the filter of the traversal *)

Lemma concat_map_filter {A B : Type} (p : B -> bool) (f : A -> list B) (l : list A) :
  List.concat (map (fun x => filter p (f x)) l) = filter p (flat_map f l).
Proof.
  induction l as [|x l IH]; simpl; [reflexivity|].
  now rewrite filter_app, IH.
Qed.

Section Search.
Variables key value : string.

Lemma search_items (items : list JSON) :
  Forall (fun item => findByFilter item key value = searched key value item) items ->
  mapM (fun item => findByFilter item key value) items =
  if existsb (raises key value) (flat_map nodes items) then throw TypeError
  else ret (map (fun item => filter (matches key value) (nodes item)) items).
Proof.
  induction 1 as [|x l Hx _ IHl]; [reflexivity|].
  cbn [mapM flat_map]. fold (mapM (fun item => findByFilter item key value) l).
  rewrite Hx, IHl, existsb_app. unfold searched.
  destruct (existsb (raises key value) (nodes x)); [reflexivity|].
  destruct (existsb (raises key value) (flat_map nodes l)); reflexivity.
Qed.

Lemma search_entries (entries : list (string * JSON)) :
  Forall (fun kv => findByFilter (snd kv) key value = searched key value (snd kv))
         entries ->
  forall res,
    for_of (fun res kv =>
              do found <- findByFilter (snd kv) key value; ret (res ++ found))
           entries res =
    if existsb (raises key value) (flat_map (fun kv => nodes (snd kv)) entries)
    then throw TypeError
    else ret (res ++ filter (matches key value)
                            (flat_map (fun kv => nodes (snd kv)) entries)).
Proof.
  induction 1 as [|kv l Hkv _ IHl]; intros res.
  - cbn. now rewrite app_nil_r.
  - cbn [for_of flat_map].
    fold (for_of (fun res kv =>
                    do found <- findByFilter (snd kv) key value; ret (res ++ found)) l).
    rewrite Hkv, existsb_app, filter_app. unfold searched.
    destruct (existsb (raises key value) (nodes (snd kv))); [reflexivity|].
    cbn [bind ret]. rewrite IHl, app_assoc. reflexivity.
Qed.

Lemma findByFilter_searched (T : JSON) :
  findByFilter T key value = searched key value T.
Proof.
  induction T using JSON_nested_ind; try reflexivity.
  - cbn [findByFilter]. rewrite (search_items _ H). unfold searched.
    cbn [nodes existsb raises orb filter matches].
    destruct (existsb (raises key value) (flat_map nodes items)); [reflexivity|].
    cbn [bind ret app]. now rewrite concat_map_filter.
  - cbn [findByFilter]. unfold searched.
    cbn [nodes existsb raises filter matches].
    destruct (filter_test entries key value) as [e|hit] eqn:Htest.
    + rewrite (filter_test_throws _ _ _ _ Htest). reflexivity.
    + cbn [bind orb]. rewrite (search_entries _ H).
      destruct (existsb (raises key value)
                        (flat_map (fun kv => nodes (snd kv)) entries));
        [reflexivity|].
      destruct hit; reflexivity.
Qed.
End Search.

Lemma includes_key_lookup (key : string) (entries : list (string * JSON)) :
  includes_key key entries
  = match lookup key entries with Some _ => true | None => false end.
Proof.
  induction entries as [|[k v] l IH]; [reflexivity|].
  cbn. destruct (String.eqb k key); [reflexivity|exact IH].
Qed.

(** A string field matches exactly when it is the target. *)
Lemma matches_string_field (key value s : string) (entries : list (string * JSON)) :
  lookup key entries = Some (JString s) ->
  matches key value (JObject entries) = String.eqb s value.
Proof.
  intros H. unfold matches, filter_test.
  now rewrite includes_key_lookup, H.
Qed.

(** C1 (amended): on every tree the search does not throw on, that is when
    no reachable node is [null] and no reachable object holds under [key]
    an object that cannot be converted to a primitive, [findByFilter]
    returns exactly the objects reachable from the tree whose own field
    [key] is loosely equal ([==]) to [value], matches nested inside matches
    included, in traversal order with a match before the matches among its
    descendants. *)
Theorem findByFilter_traversal (T : JSON) (key value : string) :
  existsb (raises key value) (nodes T) = false ->
  findByFilter T key value = ret (filter (matches key value) (nodes T)).
Proof.
  intros H. rewrite findByFilter_searched. unfold searched. now rewrite H.
Qed.

Lemma findByFilter_traversal_witness :
  existsb (raises "__typename" "Tweet")
          (nodes (JArray [quoting_post; JObject [("__typename", JString "User")]]))
  = false /\
  findByFilter (JArray [quoting_post; JObject [("__typename", JString "User")]])
               "__typename" "Tweet"
  = ret (filter (matches "__typename" "Tweet")
                (nodes (JArray [quoting_post; JObject [("__typename", JString "User")]]))).
Proof.
  split; [reflexivity|].
  apply (findByFilter_traversal
           (JArray [quoting_post; JObject [("__typename", JString "User")]])
           "__typename" "Tweet").
  reflexivity.
Defined.

(** C1 as stated fails: a field holding the boolean [true] has the string
    form ["true"], yet the search for ["true"] does not return its
    object. *)
Lemma findByFilter_not_stringified :
  search_spec (JObject [("verified", JBool true)]) "verified" "true"
  = [JObject [("verified", JBool true)]] /\
  findByFilter (JObject [("verified", JBool true)]) "verified" "true" = ret [] /\
  findByFilter (JObject [("verified", JBool true)]) "verified" "true"
  <> ret (search_spec (JObject [("verified", JBool true)]) "verified" "true").
Proof.
  split; [reflexivity|]. split; [vm_compute; reflexivity|].
  vm_compute. discriminate.
Qed.

(** C6: [typeof null] is ['object'], so the object branch runs
    [Object.keys(null)]: the search throws on [null] and on every tree that
    holds a [null], as an array element or as an object value.  Empty
    arrays and objects, and scalars, give the empty list. *)
Theorem findByFilter_null_throws (key value : string) :
  findByFilter JNull key value = throw TypeError /\
  findByFilter (JArray [JNull]) key value = throw TypeError /\
  findByFilter (JObject [("a", JNull)]) "__typename" "Tweet" = throw TypeError /\
  findByFilter (JArray []) key value = ret [] /\
  findByFilter (JObject []) key value = ret [].
Proof.
  repeat split; reflexivity.
Qed.

(** ** The match test on numbers and booleans *)

(** C7 (amended): on an object whose field [key] holds a number or a
    boolean, the match test succeeds exactly when that number, or 1 for
    [true] and 0 for [false], equals the number the target reads as
    (StringToNumber). *)
Theorem filter_test_numeric
  (entries : list (string * JSON)) (key value : string) (x : JSON) (n : float) :
  lookup key entries = Some x ->
  numeric_value x = Some n ->
  filter_test entries key value
  = ret (Number.equal n (Number.StringToNumber value)).
Proof.
  intros Hx Hn. unfold filter_test. rewrite includes_key_lookup, Hx.
  destruct x; try discriminate; cbn in Hn; inversion Hn; reflexivity.
Qed.

Lemma filter_test_numeric_witness :
  lookup "favorite_count" [("favorite_count", JNumber 123)] = Some (JNumber 123) /\
  numeric_value (JNumber 123) = Some 123%float /\
  filter_test [("favorite_count", JNumber 123)] "favorite_count" "123"
  = ret (Number.equal 123 (Number.StringToNumber "123")).
Proof.
  split; [reflexivity|]. split; [reflexivity|].
  apply (filter_test_numeric [("favorite_count", JNumber 123)] "favorite_count" "123"
                             (JNumber 123) 123%float); reflexivity.
Defined.

(** The examples of the claim: 123 matches ["123"], and also ["123.0"];
    [true] matches ["1"] and not ["true"]. *)
Example filter_test_examples :
  filter_test [("n", JNumber 123)] "n" "123" = ret true /\
  filter_test [("n", JNumber 123)] "n" "123.0" = ret true /\
  filter_test [("b", JBool true)] "b" "1" = ret true /\
  filter_test [("b", JBool true)] "b" "true" = ret false.
Proof.
  repeat split; vm_compute; reflexivity.
Qed.

(** C7 as stated fails: the string form of [true] is ["true"] and the test
    against ["true"] fails; the string form of 123 is not ["123.0"] and the
    test against ["123.0"] succeeds. *)
Lemma filter_test_not_string_form :
  (ToString (JBool true) = ret "true" /\
   filter_test [("verified", JBool true)] "verified" "true" = ret false) /\
  (ToString (JNumber 123) = ret "123" /\
   filter_test [("favorite_count", JNumber 123)] "favorite_count" "123.0" = ret true).
Proof.
  repeat split; vm_compute; reflexivity.
Qed.

(** * The fetch pipeline *)

(** ** What a method returns, apart from what it logs *)

Lemma forEach_log (entries : list LogEntry) (st : State) :
  fst (forEach log entries st) = ret tt /\
  this (snd (forEach log entries st)) = this st /\
  network (snd (forEach log entries st)) = network st.
Proof.
  revert st. induction entries as [|e l IH]; intros st; [now cbn|].
  cbn [forEach]. unfold andThen.
  destruct (log e st) as [r st1] eqn:Hlog. unfold log in Hlog.
  inversion Hlog; subst. unfold ret.
  destruct (IH {| this := this st;
                  logged := if logger (this st) then e :: logged st else logged st;
                  network := network st |}) as (H1 & H2 & H3).
  now rewrite H1, H2, H3.
Qed.

Lemma deserialize_loop_cons
  (item : Value) (rest : list Value) (deserializedList : list Entity) (st : State) :
  deserialize_loop (item :: rest) deserializedList st
  = match deserialize_item item with
    | inl e => (throw e, st)
    | inr step =>
        deserialize_loop rest (deserializedList ++ snd step)
                         (snd (forEach log (fst step) st))
    end.
Proof.
  cbn [deserialize_loop]. unfold andThen, lift.
  destruct (deserialize_item item) as [e|step]; [reflexivity|].
  destruct (forEach_log (fst step) st) as (H1 & _).
  destruct (forEach log (fst step) st) as [[e|[]] st1]; cbn in *;
    [discriminate|reflexivity].
Qed.

Lemma deserialize_loop_run (extractedData : list Value) :
  forall (deserializedList : list Entity) (st : State),
    fst (deserialize_loop extractedData deserializedList st)
    = (do steps <- mapM deserialize_item extractedData;
       ret (deserializedList ++ flat_map snd steps)) /\
    this (snd (deserialize_loop extractedData deserializedList st)) = this st /\
    network (snd (deserialize_loop extractedData deserializedList st)) = network st.
Proof.
  induction extractedData as [|item rest IH]; intros acc st.
  - cbn. now rewrite app_nil_r.
  - rewrite deserialize_loop_cons. cbn [mapM]. fold (mapM deserialize_item rest).
    destruct (deserialize_item item) as [e|step]; [now cbn|].
    destruct (forEach_log (fst step) st) as (_ & H2 & H3).
    destruct (IH (acc ++ snd step) (snd (forEach log (fst step) st)))
      as (G1 & G2 & G3).
    rewrite G1, G2, G3, H2, H3. repeat split.
    cbn [bind]. destruct (mapM deserialize_item rest) as [e|steps]; [reflexivity|].
    cbn [bind ret flat_map]. now rewrite app_assoc.
Qed.

Lemma deserializeData_run (extractedData : list Value) (next : Value) (st : State) :
  fst (deserializeData extractedData next st)
  = (do entities <- deserialized extractedData;
     ret (CursoredData.new entities (default_next next))) /\
  this (snd (deserializeData extractedData next st)) = this st /\
  network (snd (deserializeData extractedData next st)) = network st.
Proof.
  unfold deserializeData, andThen, deserialized.
  destruct (deserialize_loop_run extractedData [] st) as (H1 & H2 & H3).
  destruct (deserialize_loop extractedData [] st) as [[e|l] st1];
    cbn [fst snd] in *;
    destruct (mapM deserialize_item extractedData) as [e'|steps];
    cbn in H1 |- *; inversion H1; subst; auto.
Qed.

(** ** The authorization gate *)

Lemma checkAuthorization_run (type : EResourceType) (st : State) :
  fst (checkAuthorization type st)
  = (if denied (this st) type then throw RESOURCE_NOT_ALLOWED else ret tt) /\
  this (snd (checkAuthorization type st)) = this st /\
  network (snd (checkAuthorization type st)) = network st.
Proof.
  unfold checkAuthorization, andThen, read, log, raise, pure, denied, guest_allowed.
  cbn. destruct (isAuthenticated (this st)); destruct type; cbn; auto.
Qed.

Section Pipeline.
Variable axios : AxiosRequestConfig -> result JSON.
Variable getGuestCredential : result AuthCredential.
Variable handle : Exn -> result unit.

Lemma request_run (config : Request) (st : State) :
  fst (request axios getGuestCredential handle config st)
  = (if denied (this st) (endpoint config) then throw RESOURCE_NOT_ALLOWED
     else do c <- credential getGuestCredential (this st);
          respond axios handle config c) /\
  network (snd (request axios getGuestCredential handle config st))
  = issued getGuestCredential (this st) config ++ network st.
Proof.
  destruct (request axios getGuestCredential handle config st) as [r st'] eqn:Hrun.
  cbn [fst snd]. unfold request in Hrun. unfold andThen at 1 in Hrun.
  destruct (checkAuthorization_run (endpoint config) st) as (H1 & H2 & H3).
  destruct (checkAuthorization (endpoint config) st) as [r1 st1].
  cbn [fst snd] in H1, H2, H3. unfold issued, credential, respond.
  destruct (denied (this st) (endpoint config)); subst r1.
  - inversion Hrun; subst. now rewrite H3.
  - unfold ret in Hrun. unfold andThen, read, call, lift, set_cred, pure, raise in Hrun.
    cbn in Hrun. rewrite H2 in Hrun.
    destruct (cred (this st)) as [c|]; cbn in Hrun |- *.
    + destruct (axios {| config := config; headers := c |}) as [e|data];
        cbn in Hrun; [destruct (handle e) as [e'|[]]; cbn in Hrun|];
        inversion Hrun; subst; cbn; rewrite ?H3; auto.
    + destruct getGuestCredential as [e|c]; cbn in Hrun |- *;
        [inversion Hrun; subst; cbn; rewrite ?H3; auto|].
      destruct (axios {| config := config; headers := c |}) as [e|data];
        cbn in Hrun; [destruct (handle e) as [e'|[]]; cbn in Hrun|];
        inversion Hrun; subst; cbn; rewrite ?H3; auto.
Qed.

Lemma fetch_run (type : EResourceType) (args : Args) (st : State) :
  fst (fetch axios getGuestCredential handle type args st)
  = fetched axios getGuestCredential handle (this st) type args /\
  network (snd (fetch axios getGuestCredential handle type args st))
  = issued getGuestCredential (this st) (new_Request type args) ++ network st.
Proof.
  destruct (fetch axios getGuestCredential handle type args st) as [r st'] eqn:Hrun.
  cbn [fst snd]. unfold fetch in Hrun. unfold andThen at 1 in Hrun.
  destruct (log (FETCH type args) st) as [r0 st0] eqn:Hlog.
  unfold log in Hlog. inversion Hlog as [[Hr Hst]].
  assert (Hthis : this st0 = this st) by (now subst st0).
  assert (Hnet : network st0 = network st) by (now subst st0).
  clear Hlog Hst. subst r0. unfold ret in Hrun.
  unfold andThen at 1 in Hrun.
  destruct (request_run (new_Request type args) st0) as (H1 & H2).
  destruct (request axios getGuestCredential handle (new_Request type args) st0)
    as [r1 st1].
  cbn [fst snd endpoint] in H1, H2. rewrite Hthis in H1, H2. rewrite Hnet in H2.
  unfold fetched.
  destruct (denied (this st) type); subst r1;
    [inversion Hrun; subst; auto|].
  destruct (credential getGuestCredential (this st)) as [e|c];
    [inversion Hrun; subst; auto|]. cbn [bind] in Hrun |- *.
  destruct (respond axios handle (new_Request type args) c) as [e|data];
    [inversion Hrun; subst; auto|]. cbn [bind] in Hrun |- *.
  unfold andThen, lift in Hrun.
  destruct (extractData data type) as [e|ex];
    [inversion Hrun; subst; auto|]. cbn [bind].
  destruct (deserializeData_run (fst ex) (snd ex) st1) as (G1 & _ & G3).
  rewrite Hrun in G1, G3. cbn [fst snd] in G1, G3. now rewrite G1, G3.
Qed.

Lemma post_run (type : EResourceType) (args : Args) (st : State) :
  fst (post axios getGuestCredential handle type args st)
  = (if denied (this st) type then throw RESOURCE_NOT_ALLOWED
     else do c <- credential getGuestCredential (this st);
          do _ <- respond axios handle (new_Request type args) c;
          ret true) /\
  network (snd (post axios getGuestCredential handle type args st))
  = issued getGuestCredential (this st) (new_Request type args) ++ network st.
Proof.
  destruct (post axios getGuestCredential handle type args st) as [r st'] eqn:Hrun.
  cbn [fst snd]. unfold post in Hrun. unfold andThen at 1 in Hrun.
  destruct (log (POST type args) st) as [r0 st0] eqn:Hlog.
  unfold log in Hlog. inversion Hlog as [[Hr Hst]].
  assert (Hthis : this st0 = this st) by (now subst st0).
  assert (Hnet : network st0 = network st) by (now subst st0).
  clear Hlog Hst. subst r0. unfold ret in Hrun.
  unfold andThen at 1 in Hrun.
  destruct (request_run (new_Request type args) st0) as (H1 & H2).
  destruct (request axios getGuestCredential handle (new_Request type args) st0)
    as [r1 st1].
  cbn [fst snd endpoint] in H1, H2. rewrite Hthis in H1, H2. rewrite Hnet in H2.
  destruct (denied (this st) type); subst r1;
    [inversion Hrun; subst; auto|].
  destruct (credential getGuestCredential (this st)) as [e|c];
    [inversion Hrun; subst; auto|]. cbn [bind] in Hrun |- *.
  destruct (respond axios handle (new_Request type args) c) as [e|data];
    inversion Hrun; subst; auto.
Qed.

Lemma details_run (id : string) (st : State) :
  fst (details axios getGuestCredential handle id st)
  = (do data <- fetched axios getGuestCredential handle (this st) TWEET_DETAILS
                        [("id", Some (JString id))];
     ret (hd_error (CursoredData.list data))).
Proof.
  unfold details, andThen.
  destruct (fetch_run TWEET_DETAILS [("id", Some (JString id))] st) as (H1 & _).
  destruct (fetch axios getGuestCredential handle TWEET_DETAILS
                  [("id", Some (JString id))] st) as [[e|data] st1];
    cbn [fst] in H1; rewrite <- H1; reflexivity.
Qed.
End Pipeline.

(** C3 (amended): on an instance without API key, [fetch] and [post] of a
    kind outside the guest-allowed set fail with the authorization error
    and issue no network call; the guest-allowed set is the single-post
    lookup, the single-account lookup by user name and the user's primary
    timeline, and for these the check returns without effect on the
    instance and the request goes out to the network. *)
Theorem guest_gate
  (axios : AxiosRequestConfig -> result JSON) (g : result AuthCredential)
  (h : Exn -> result unit) (type : EResourceType) (args : Args) (st : State) :
  isAuthenticated (this st) = false ->
  if guest_allowed type then
    fst (checkAuthorization type st) = ret tt /\
    this (snd (checkAuthorization type st)) = this st /\
    network (snd (checkAuthorization type st)) = network st /\
    network (snd (fetch axios g h type args st))
    = issued g (this st) (new_Request type args) ++ network st /\
    network (snd (post axios g h type args st))
    = issued g (this st) (new_Request type args) ++ network st /\
    issued g (this st) (new_Request type args) <> []
  else
    fst (fetch axios g h type args st) = throw RESOURCE_NOT_ALLOWED /\
    network (snd (fetch axios g h type args st)) = network st /\
    fst (post axios g h type args st) = throw RESOURCE_NOT_ALLOWED /\
    network (snd (post axios g h type args st)) = network st.
Proof.
  intros Hguest.
  destruct (checkAuthorization_run type st) as (C1 & C2 & C3).
  destruct (fetch_run axios g h type args st) as (F1 & F2).
  destruct (post_run axios g h type args st) as (P1 & P2).
  assert (Hdenied : denied (this st) type = negb (guest_allowed type))
    by (unfold denied; rewrite Hguest; now destruct (guest_allowed type)).
  unfold fetched in F1. unfold issued in F2, P2 |- *. cbn [endpoint] in *.
  rewrite Hdenied in *.
  destruct (guest_allowed type); cbn [negb] in *.
  - repeat split; auto.
    destruct (cred (this st)); [discriminate|]. destruct g; discriminate.
  - repeat split; auto.
Qed.

Lemma guest_gate_witness :
  isAuthenticated (this (start None)) = false /\
  (fst (fetch (fun _ => ret (JObject [])) (ret GuestLogin) (fun _ => ret tt)
              USER_FOLLOWERS [("id", Some (JString "1"))] (start None))
   = throw RESOURCE_NOT_ALLOWED /\
   network (snd (fetch (fun _ => ret (JObject [])) (ret GuestLogin) (fun _ => ret tt)
                       USER_FOLLOWERS [("id", Some (JString "1"))] (start None)))
   = network (start None) /\
   fst (post (fun _ => ret (JObject [])) (ret GuestLogin) (fun _ => ret tt)
             USER_FOLLOWERS [("id", Some (JString "1"))] (start None))
   = throw RESOURCE_NOT_ALLOWED /\
   network (snd (post (fun _ => ret (JObject [])) (ret GuestLogin) (fun _ => ret tt)
                      USER_FOLLOWERS [("id", Some (JString "1"))] (start None)))
   = network (start None)).
Proof.
  split; [reflexivity|].
  apply (guest_gate (fun _ => ret (JObject [])) (ret GuestLogin) (fun _ => ret tt)
                    USER_FOLLOWERS [("id", Some (JString "1"))] (start None)).
  reflexivity.
Defined.

(** A guest asking for a user's primary timeline: the check lets the
    request through, and it goes out after a guest login. *)
Example guest_gate_allowed :
  fst (checkAuthorization USER_TWEETS (start None)) = ret tt /\
  network (snd (fetch (answering timeline_body) (ret GuestLogin) rethrow
                      USER_TWEETS [] (start None)))
  = [HttpCall {| config := new_Request USER_TWEETS []; headers := GuestLogin |};
     GuestLoginCall].
Proof.
  split; reflexivity.
Qed.

(** C3 as stated fails: the lookup of an account by its id is a
    single-entity lookup, and a guest is refused it. *)
Lemma guest_refused_lookup_by_id :
  guest_allowed_spec USER_DETAILS_BY_ID = true /\
  fst (checkAuthorization USER_DETAILS_BY_ID (start None))
  = throw RESOURCE_NOT_ALLOWED /\
  fst (fetch (fun _ => ret (JObject [])) (ret GuestLogin) (fun _ => ret tt)
             USER_DETAILS_BY_ID [("id", Some (JString "1"))] (start None))
  = throw RESOURCE_NOT_ALLOWED.
Proof.
  repeat split; reflexivity.
Qed.

(** * Deserialization (EntityDeserializer) *)

Lemma looseEq_convertible (x : Value) (value : string) :
  convertible x = true -> looseEq x value = ret (loosely x value).
Proof.
  unfold convertible, loosely.
  destruct x as [[| | | |items|entries]|]; cbn [looseEq]; try reflexivity.
  - destruct (ToString (JArray items)); [discriminate|reflexivity].
  - destruct (ToString (JObject entries)); [discriminate|reflexivity].
Qed.

Lemma get_truthy (item : Value) (name : string) :
  truthy item = true -> get item name = ret (field item name).
Proof.
  destruct item as [[]|]; cbn; try discriminate; reflexivity.
Qed.

Lemma deserialize_item_entity (item : Value) :
  comparable item = true ->
  exists entries, deserialize_item item = ret (entries, entity_of item).
Proof.
  unfold comparable. intros Hc.
  unfold deserialize_item, valid_raw_tweet, valid_raw_user, tagged, and_also.
  unfold entity_of, is_post, is_account.
  destruct (truthy item) eqn:Ht; cbn [negb orb andb bind ret] in *.
  - rewrite !(get_truthy _ _ Ht). cbn [bind ret].
    rewrite !(looseEq_convertible _ _ Hc). cbn [bind ret].
    destruct item as [raw|]; [|discriminate].
    destruct (loosely (field (Some raw) "__typename") "Tweet"); cbn [bind ret andb].
    + destruct (truthy (field (Some raw) "rest_id")); cbn [bind ret andb];
        [eexists; reflexivity|].
      destruct (loosely (field (Some raw) "__typename") "User");
        cbn [bind ret andb]; eexists; reflexivity.
    + destruct (loosely (field (Some raw) "__typename") "User");
        cbn [bind ret andb]; [|eexists; reflexivity].
      destruct (truthy (field (Some raw) "rest_id")); cbn [bind ret andb];
        [|eexists; reflexivity].
      destruct (truthy (field (Some raw) "id")); eexists; reflexivity.
  - destruct item; eexists; reflexivity.
Qed.

Lemma deserialized_entities (extractedData : list Value) :
  forallb comparable extractedData = true ->
  deserialized extractedData = ret (flat_map entity_of extractedData).
Proof.
  unfold deserialized.
  induction extractedData as [|item rest IH]; [reflexivity|].
  cbn [forallb]. intros H. apply andb_prop in H as [Hitem Hrest].
  destruct (deserialize_item_entity item Hitem) as [entries Hstep].
  cbn [mapM]. fold (mapM deserialize_item rest). rewrite Hstep. cbn [bind ret].
  specialize (IH Hrest).
  destruct (mapM deserialize_item rest) as [e|steps]; [discriminate|].
  cbn [bind ret] in IH |- *. inversion IH as [Hrest'].
  cbn [flat_map snd]. now rewrite Hrest'.
Qed.

Lemma entity_of_length (item : Value) :
  List.length (entity_of item) = if qualifies item then 1 else 0.
Proof.
  unfold entity_of, qualifies.
  destruct item as [raw|]; [|reflexivity].
  destruct (is_post (Some raw)); [reflexivity|].
  destruct (is_account (Some raw)); reflexivity.
Qed.

Lemma entities_length (items : list Value) :
  List.length (flat_map entity_of items)
  + List.length (filter (fun item => negb (qualifies item)) items)
  = List.length items.
Proof.
  induction items as [|item rest IH]; [reflexivity|].
  cbn [flat_map filter]. rewrite length_app, entity_of_length.
  destruct (qualifies item); cbn [negb List.length]; lia.
Qed.

(** C4: [deserializeData] keeps a fragment as a post exactly when it
    carries the tag [Tweet] and a non-empty [rest_id], as an account exactly
    when it carries the tag [User], a non-empty [rest_id] and its [id], and
    drops every other fragment without throwing: the list returned is the
    entities of the qualifying fragments in their order, one shorter per
    fragment that does not qualify.  The fragments are those whose tag can
    be compared, as the declared type of the raw fragments (a string tag)
    makes them. *)
Theorem deserializeData_keeps_valid
  (extractedData : list Value) (next : Value) (st : State) :
  forallb comparable extractedData = true ->
  fst (deserializeData extractedData next st)
  = ret (CursoredData.new (flat_map entity_of extractedData) (default_next next)) /\
  List.length (flat_map entity_of extractedData)
  + List.length (filter (fun item => negb (qualifies item)) extractedData)
  = List.length extractedData.
Proof.
  intros H. split; [|apply entities_length].
  destruct (deserializeData_run extractedData next st) as (H1 & _).
  now rewrite H1, (deserialized_entities _ H).
Qed.

Lemma deserializeData_keeps_valid_witness :
  forallb comparable mixed_fragments = true /\
  (fst (deserializeData mixed_fragments undefined (start None))
   = ret (CursoredData.new
            [Tweet (JObject [("__typename", JString "Tweet"); ("rest_id", JString "123")]);
             User (JObject [("__typename", JString "User"); ("rest_id", JString "8");
                            ("id", JString "VXNlcjo4")])]
            (JString "")) /\
   List.length (flat_map entity_of mixed_fragments)
   + List.length (filter (fun item => negb (qualifies item)) mixed_fragments)
   = List.length mixed_fragments).
Proof.
  split; [reflexivity|].
  apply (deserializeData_keeps_valid mixed_fragments undefined (start None)).
  reflexivity.
Defined.

(** * Extraction (ResourceExtractor) *)

(** ** Fragments are nodes of the body *)

Lemma search_returns (data : JSON) (key value : string) (found : list JSON) :
  findByFilter data key value = ret found ->
  existsb (raises key value) (nodes data) = false /\
  found = filter (matches key value) (nodes data).
Proof.
  rewrite findByFilter_searched. unfold searched.
  destruct (existsb (raises key value) (nodes data)); [discriminate|].
  intros H. inversion H. auto.
Qed.

Lemma nodes_self (j : JSON) : In j (nodes j).
Proof. destruct j; left; reflexivity. Qed.

Lemma nodes_trans (T : JSON) :
  forall u w, In u (nodes T) -> In w (nodes u) -> In w (nodes T).
Proof.
  induction T using JSON_nested_ind; intros u w Ha Hb;
    try (destruct Ha as [<-|[]]; exact Hb).
  - destruct Ha as [<-|Ha]; [exact Hb|]. right.
    cbn [nodes] in Ha. apply in_flat_map in Ha as (x & Hx & Hax).
    apply in_flat_map. exists x. split; [exact Hx|].
    rewrite Forall_forall in H. exact (H x Hx u w Hax Hb).
  - destruct Ha as [<-|Ha]; [exact Hb|]. right.
    apply in_flat_map in Ha as (kv & Hkv & Hakv).
    apply in_flat_map. exists kv. split; [exact Hkv|].
    rewrite Forall_forall in H. exact (H kv Hkv u w Hakv Hb).
Qed.

Lemma lookup_In (name : string) (entries : list (string * JSON)) (v : JSON) :
  lookup name entries = Some v -> exists k, In (k, v) entries.
Proof.
  induction entries as [|[k x] l IH]; [discriminate|]. cbn [lookup].
  destruct (String.eqb k name).
  - intros H. inversion H. subst. exists k. now left.
  - intros H. destruct (IH H) as [k' Hk']. exists k'. now right.
Qed.

Lemma lookup_node (name : string) (entries : list (string * JSON)) (v : JSON) :
  lookup name entries = Some v -> In v (nodes (JObject entries)).
Proof.
  intros H. destruct (lookup_In _ _ _ H) as [k Hk]. right.
  apply in_flat_map. exists (k, v). split; [exact Hk|apply nodes_self].
Qed.

Lemma unwrap_node (results : string) (item : JSON) (r : Value) :
  unwrap results item = ret r ->
  match r with
  | Some n => In n (nodes item)
  | None => True
  end.
Proof.
  unfold unwrap. destruct item; cbn; try discriminate.
  destruct (lookup results entries) as [t|] eqn:Ht; [|discriminate].
  destruct t; cbn; try discriminate;
    try (intros H; inversion H; subst; exact I).
  destruct (lookup "result" entries0) as [n|] eqn:Hn;
    intros H; inversion H; subst; [|exact I].
  change (In n (nodes (JObject entries))).
  apply (nodes_trans _ (JObject entries0)).
  - exact (lookup_node _ _ _ Ht).
  - exact (lookup_node _ _ _ Hn).
Qed.

(** ** Fragments can be compared *)

Lemma looseEq_throws_always (x : Value) (value value' : string) (e : Exn) :
  looseEq x value = throw e -> looseEq x value' = throw e.
Proof.
  destruct x as [[| | | |items|entries]|]; cbn [looseEq]; try discriminate.
  - destruct (ToString (JArray items)); [auto|discriminate].
  - destruct (ToString (JObject entries)); [auto|discriminate].
Qed.

Lemma node_comparable (data : JSON) (value : string) (n : JSON) :
  existsb (raises "__typename" value) (nodes data) = false ->
  In n (nodes data) ->
  comparable (Some n) = true.
Proof.
  intros Hall Hn.
  assert (Hr : raises "__typename" value n = false).
  { destruct (raises "__typename" value n) eqn:Hr; [|reflexivity].
    assert (existsb (raises "__typename" value) (nodes data) = true)
      by (apply existsb_exists; eauto).
    congruence. }
  unfold comparable, convertible.
  destruct n;
    try (cbn [field looseEq undefined ret]; now rewrite ?orb_true_r).
  cbn [truthy negb orb field].
  cbn [raises] in Hr. unfold filter_test in Hr.
  rewrite includes_key_lookup in Hr.
  destruct (lookup "__typename" entries) as [x|]; [|reflexivity].
  destruct (looseEq (Some x) "") as [e|b] eqn:Hx; [|reflexivity].
  now rewrite (looseEq_throws_always _ _ value _ Hx) in Hr.
Qed.

Lemma found_comparable (data : JSON) (value : string) (found : list JSON) :
  findByFilter data "__typename" value = ret found ->
  forallb comparable (map Some found) = true.
Proof.
  intros H. apply search_returns in H as [Hall ->].
  apply forallb_forall. intros x Hx.
  apply in_map_iff in Hx as (n & <- & Hn). apply filter_In in Hn as [Hn _].
  exact (node_comparable _ _ _ Hall Hn).
Qed.

Lemma unwrapped_comparable
  (data : JSON) (value results : string) (found : list JSON) (inners : list Value) :
  findByFilter data "__typename" value = ret found ->
  mapM (unwrap results) found = ret inners ->
  forallb comparable inners = true.
Proof.
  intros H. apply search_returns in H as [Hall ->].
  assert (Hin : Forall (fun n => In n (nodes data))
                       (filter (matches "__typename" value) (nodes data))).
  { apply Forall_forall. intros n Hn. now apply filter_In in Hn. }
  revert inners Hin.
  induction (filter (matches "__typename" value) (nodes data)) as [|item rest IH];
    intros inners Hin.
  - cbn. intros Heq. inversion Heq. reflexivity.
  - cbn [mapM]. fold (mapM (unwrap results) rest).
    inversion Hin as [|? ? Hitem Hrest]; subst.
    destruct (unwrap results item) as [e|r] eqn:Hr; [discriminate|].
    cbn [bind]. destruct (mapM (unwrap results) rest) as [e|rs]; [discriminate|].
    cbn [bind ret]. intros Heq. inversion Heq. subst.
    cbn [forallb]. rewrite (IH rs Hrest eq_refl), andb_true_r.
    pose proof (unwrap_node _ _ _ Hr) as Hnode.
    destruct r as [n|]; [|reflexivity].
    exact (node_comparable _ _ _ Hall (nodes_trans _ _ _ Hitem Hnode)).
Qed.

(** ** The table of [extractData] *)

Lemma extractData_parts (data : JSON) (type : EResourceType) :
  extractData data type
  = (do required <- fragments data type;
     do cursors <- findByFilter data "cursorType" "Bottom";
     do next <- get_opt (hd_error cursors) "value";
     ret (required, next)).
Proof. destruct type; reflexivity. Qed.

Lemma matches_object (key value : string) (n : JSON) :
  matches key value n = true -> exists entries, n = JObject entries.
Proof. destruct n; try discriminate. eauto. Qed.

Lemma extractData_returns
  (data : JSON) (type : EResourceType) (required : list Value) (next : Value) :
  extractData data type = ret (required, next) ->
  fragments data type = ret required /\ next = first_cursor_value data.
Proof.
  rewrite extractData_parts.
  destruct (fragments data type) as [e|required']; [discriminate|]. cbn [bind].
  destruct (findByFilter data "cursorType" "Bottom") as [e|cursors] eqn:Hc;
    [discriminate|]. cbn [bind].
  apply search_returns in Hc as [_ Hc].
  unfold first_cursor_value, bottom_cursors. rewrite <- Hc.
  assert (Hhead : forall first rest, cursors = first :: rest ->
                                     exists entries, first = JObject entries).
  { intros first rest Heq. apply (matches_object "cursorType" "Bottom").
    assert (Hin : In first cursors) by (rewrite Heq; now left).
    rewrite Hc in Hin. now apply filter_In in Hin. }
  destruct cursors as [|first rest].
  - cbn. intros H. inversion H. auto.
  - destruct (Hhead first rest eq_refl) as [entries ->]. cbn.
    intros H. inversion H. auto.
Qed.

Lemma fragments_comparable
  (data : JSON) (type : EResourceType) (required : list Value) :
  fragments data type = ret required -> forallb comparable required = true.
Proof.
  unfold fragments. destruct (entity_tag type) as [tag|].
  - destruct (findByFilter data "__typename" tag) as [e|found] eqn:Hf;
      [discriminate|]. cbn. intros H. inversion H. subst.
    exact (found_comparable _ _ _ Hf).
  - destruct (container type) as [[tag results]|].
    + destruct (findByFilter data "__typename" tag) as [e|found] eqn:Hf;
        [discriminate|]. cbn [bind]. intros H.
      exact (unwrapped_comparable _ _ _ _ _ Hf H).
    + intros H. inversion H. reflexivity.
Qed.

(** ** From the body to the result *)

(** Once the request is let through and answered with [data], and
    extraction returns, [fetch] returns the entities of the qualifying
    fragments with the cursor. *)
Lemma fetched_entities
  (axios : AxiosRequestConfig -> result JSON) (g : result AuthCredential)
  (h : Exn -> result unit) (self : FetcherService) (type : EResourceType)
  (args : Args) (c : AuthCredential) (data : JSON)
  (required : list Value) (next : Value) :
  denied self type = false ->
  credential g self = ret c ->
  axios {| config := new_Request type args; headers := c |} = ret data ->
  extractData data type = ret (required, next) ->
  fetched axios g h self type args
  = ret (CursoredData.new (flat_map entity_of required) (default_next next)).
Proof.
  intros Hd Hc Ha He. unfold fetched, respond.
  rewrite Hd, Hc. cbn [bind ret]. rewrite Ha. cbn [bind ret]. rewrite He.
  cbn [bind ret fst snd].
  apply extractData_returns in He as [Hf _].
  now rewrite (deserialized_entities _ (fragments_comparable _ _ _ Hf)).
Qed.

(** * Pagination *)

(** X22: whenever extraction returns, for a collection kind as for any
    other, its cursor is the [value] field of the first fragment in
    traversal order whose [cursorType] equals ["Bottom"]; and the result
    [fetch] hands to the caller carries that value, or the empty string when
    the body holds no such fragment. *)
Theorem next_cursor
  (axios : AxiosRequestConfig -> result JSON) (g : result AuthCredential)
  (h : Exn -> result unit) (type : EResourceType) (args : Args) (st : State)
  (c : AuthCredential) (data : JSON) (required : list Value) (next : Value) :
  denied (this st) type = false ->
  credential g (this st) = ret c ->
  axios {| config := new_Request type args; headers := c |} = ret data ->
  extractData data type = ret (required, next) ->
  next = match bottom_cursors data with
         | [] => undefined
         | first :: _ => field (Some first) "value"
         end /\
  fst (fetch axios g h type args st)
  = ret (CursoredData.new
           (flat_map entity_of required)
           match bottom_cursors data with
           | [] => JString ""
           | first :: _ => default_next (field (Some first) "value")
           end).
Proof.
  intros Hd Hc Ha He.
  destruct (fetch_run axios g h type args st) as (Hrun & _).
  rewrite Hrun, (fetched_entities _ _ _ _ _ _ _ _ _ _ Hd Hc Ha He).
  apply extractData_returns in He as [_ ->]. unfold first_cursor_value.
  destruct (bottom_cursors data); auto.
Qed.

Lemma next_cursor_witness :
  denied (this user_instance) USER_LIKES = false /\
  credential no_guest_login (this user_instance) = ret (UserCredential "a2V5") /\
  answering timeline_body
            {| config := new_Request USER_LIKES [];
               headers := UserCredential "a2V5" |}
  = ret timeline_body /\
  extractData timeline_body USER_LIKES
  = ret ([Some (post_fragment "1"); Some (post_fragment "2")],
         Some (JString "abc|")) /\
  Some (JString "abc|")
  = match bottom_cursors timeline_body with
    | [] => undefined
    | first :: _ => field (Some first) "value"
    end /\
  fst (fetch (answering timeline_body) no_guest_login rethrow USER_LIKES []
             user_instance)
  = ret (CursoredData.new
           (flat_map entity_of [Some (post_fragment "1"); Some (post_fragment "2")])
           match bottom_cursors timeline_body with
           | [] => JString ""
           | first :: _ => default_next (field (Some first) "value")
           end).
Proof.
  repeat (split; [reflexivity|]).
  apply (next_cursor (answering timeline_body) no_guest_login rethrow USER_LIKES []
                     user_instance (UserCredential "a2V5") timeline_body
                     [Some (post_fragment "1"); Some (post_fragment "2")]
                     (Some (JString "abc|")));
    reflexivity.
Defined.

(** * Timelines and connections *)





(** C5: a container fragment without [tweet_results] makes the projection
    read a property of [undefined]: extraction throws and [fetch] returns
    nothing of the page, the well-formed sibling included.  A container
    whose [tweet_results] holds no [result] is dropped and its sibling
    kept. *)
Theorem extractData_broken_container :
  extractData timeline_body_broken TWEET_SEARCH = throw TypeError /\
  fst (fetch (answering timeline_body_broken) no_guest_login rethrow
             TWEET_SEARCH [] user_instance)
  = throw TypeError /\
  extractData timeline_body_hollow TWEET_SEARCH
  = ret ([Some (post_fragment "1"); undefined], undefined) /\
  fst (fetch (answering timeline_body_hollow) no_guest_login rethrow
             TWEET_SEARCH [] user_instance)
  = ret (CursoredData.new [Tweet (post_fragment "1")] (JString "")).
Proof.
  repeat split; reflexivity.
Qed.

(** * Single-entity lookups *)

(** C9 (amended): for a single-entity kind, extraction searches the
    cursor as for every other kind: when it returns, its cursor is the
    [value] field of the first fragment whose [cursorType] equals
    ["Bottom"], and it is empty, [undefined] and then the empty string, when
    the body holds no such fragment. *)
Theorem lookup_cursor
  (data : JSON) (type : EResourceType) (required : list Value) (next : Value) :
  single_entity_lookup type = true ->
  extractData data type = ret (required, next) ->
  match bottom_cursors data with
  | [] => next = undefined /\ default_next next = JString ""
  | first :: _ => next = field (Some first) "value"
  end.
Proof.
  intros _ He. apply extractData_returns in He as [_ ->].
  unfold first_cursor_value. destruct (bottom_cursors data); auto.
Qed.

Lemma lookup_cursor_witness :
  single_entity_lookup TWEET_DETAILS = true /\
  extractData lookup_body TWEET_DETAILS
  = ret ([Some (post_fragment "123")], undefined) /\
  (undefined = undefined /\ default_next undefined = JString "").
Proof.
  split; [reflexivity|]. split; [reflexivity|].
  apply (lookup_cursor lookup_body TWEET_DETAILS
                       [Some (post_fragment "123")] undefined);
    reflexivity.
Defined.

(** Scenario A: one fragment, one post with id ["123"], an empty cursor. *)
Example lookup_scenario :
  extractData lookup_body TWEET_DETAILS
  = ret ([Some (post_fragment "123")], undefined) /\
  fst (fetch (answering lookup_body) (ret GuestLogin) rethrow TWEET_DETAILS
             [("id", Some (JString "123"))] (start None))
  = ret (CursoredData.new [Tweet (post_fragment "123")] (JString "")) /\
  Entity_id (Tweet (post_fragment "123")) = Some (JString "123").
Proof.
  repeat split; reflexivity.
Qed.

(** C9 as stated fails: on the body of a single-post lookup that holds a
    cursor marker, extraction returns the marker's value and [fetch] hands
    it to the caller. *)
Lemma lookup_cursor_not_empty :
  single_entity_lookup TWEET_DETAILS = true /\
  extractData lookup_body_with_cursor TWEET_DETAILS
  = ret ([Some (post_fragment "123")], Some (JString "next-page")) /\
  fst (fetch (answering lookup_body_with_cursor) (ret GuestLogin) rethrow
             TWEET_DETAILS [("id", Some (JString "123"))] (start None))
  = ret (CursoredData.new [Tweet (post_fragment "123")] (JString "next-page")).
Proof.
  repeat split; reflexivity.
Qed.

(** C10: when the transport answers the single-post lookup with a body
    from which extraction returns no fragment that survives
    deserialization, none at all in particular, [details] returns
    [undefined], the first element of an empty list, and does not throw. *)
Theorem details_absent
  (axios : AxiosRequestConfig -> result JSON) (g : result AuthCredential)
  (h : Exn -> result unit) (id : string) (st : State)
  (c : AuthCredential) (data : JSON) (required : list Value) (next : Value) :
  credential g (this st) = ret c ->
  axios {| config := new_Request TWEET_DETAILS [("id", Some (JString id))];
           headers := c |} = ret data ->
  extractData data TWEET_DETAILS = ret (required, next) ->
  flat_map entity_of required = [] ->
  fst (details axios g h id st) = ret None.
Proof.
  intros Hc Ha He Hnone.
  assert (Hd : denied (this st) TWEET_DETAILS = false) by reflexivity.
  rewrite details_run, (fetched_entities _ _ _ _ _ _ _ _ _ _ Hd Hc Ha He), Hnone.
  reflexivity.
Qed.

Lemma details_absent_witness :
  credential (ret GuestLogin) (this (start None)) = ret GuestLogin /\
  answering anonymous_post_body
            {| config := new_Request TWEET_DETAILS [("id", Some (JString "123"))];
               headers := GuestLogin |}
  = ret anonymous_post_body /\
  extractData anonymous_post_body TWEET_DETAILS
  = ret ([Some (JObject [("__typename", JString "Tweet")])], undefined) /\
  flat_map entity_of [Some (JObject [("__typename", JString "Tweet")])] = [] /\
  fst (details (answering anonymous_post_body) (ret GuestLogin) rethrow "123"
               (start None))
  = ret None.
Proof.
  repeat (split; [reflexivity|]).
  apply (details_absent (answering anonymous_post_body) (ret GuestLogin) rethrow "123"
                        (start None) GuestLogin anonymous_post_body
                        [Some (JObject [("__typename", JString "Tweet")])] undefined);
    reflexivity.
Defined.

Example details_of_empty_body :
  fst (details (answering empty_body) (ret GuestLogin) rethrow "123" (start None))
  = ret None.
Proof. reflexivity. Qed.

(** * Further properties of the tree search *)

Lemma mapM_returns {A B : Type} (f : A -> result B) (xs : list A) :
  Forall (fun x => exists y, f x = ret y) xs -> exists ys, mapM f xs = ret ys.
Proof.
  induction 1 as [|x l [y Hy] _ [ys Hys]]; [now exists []|].
  exists (y :: ys). cbn [mapM]. fold (mapM f l). now rewrite Hy, Hys.
Qed.

Lemma plain_child (T n : JSON) :
  plain T = true -> In n (nodes T) -> plain n = true.
Proof.
  unfold plain. intros HT Hn. apply forallb_forall. intros m Hm.
  rewrite forallb_forall in HT. apply HT. exact (nodes_trans _ _ _ Hn Hm).
Qed.

Lemma ToString_plain (j : JSON) :
  plain j = true -> exists s, ToString j = ret s.
Proof.
  induction j using JSON_nested_ind; intros Hp; cbn [ToString]; eauto.
  - assert (Hparts : exists parts,
               mapM (fun x => match x with
                              | JNull => ret ""
                              | _ => ToString x
                              end) items = ret parts).
    { apply mapM_returns. rewrite Forall_forall in H |- *. intros x Hx.
      assert (Hpx : plain x = true).
      { apply (plain_child _ _ Hp). right. apply in_flat_map.
        exists x. split; [exact Hx|apply nodes_self]. }
      destruct x; eauto; exact (H _ Hx Hpx). }
    destruct Hparts as [parts ->]. cbn. eauto.
  - unfold plain in Hp. cbn [nodes forallb plain_node] in Hp.
    apply andb_prop in Hp as [Hp _].
    destruct (includes_key "toString" entries); [discriminate|eauto].
Qed.

Lemma looseEq_plain (x : JSON) (value : string) :
  plain x = true -> exists b, looseEq (Some x) value = ret b.
Proof.
  intros Hp. destruct x; cbn [looseEq]; eauto.
  - destruct (ToString_plain _ Hp) as [s ->]. cbn. eauto.
  - destruct (ToString_plain _ Hp) as [s ->]. cbn. eauto.
Qed.

Lemma plain_never_raises (T : JSON) (key value : string) :
  plain T = true -> existsb (raises key value) (nodes T) = false.
Proof.
  intros Hp. destruct (existsb (raises key value) (nodes T)) eqn:He; [|reflexivity].
  apply existsb_exists in He as (n & Hn & Hr).
  pose proof Hp as Hall. unfold plain in Hall. rewrite forallb_forall in Hall.
  pose proof (Hall n Hn) as Hplain.
  destruct n; try discriminate. cbn [raises] in Hr.
  unfold filter_test in Hr. rewrite includes_key_lookup in Hr.
  destruct (lookup key entries) as [x|] eqn:Hx; [|discriminate].
  assert (Hpx : plain x = true).
  { apply (plain_child _ _ Hp). apply (nodes_trans _ _ _ Hn).
    exact (lookup_node _ _ _ Hx). }
  destruct (looseEq_plain x value Hpx) as [b Hb]. rewrite Hb in Hr. discriminate.
Qed.

(** X1: on a tree that holds no [null] and no object with an own entry
    [toString], [findByFilter] never throws, whatever the key and the
    value: it returns the matching objects in traversal order. *)
Theorem findByFilter_plain (T : JSON) (key value : string) :
  plain T = true ->
  findByFilter T key value = ret (filter (matches key value) (nodes T)).
Proof.
  intros Hp. rewrite findByFilter_searched. unfold searched.
  now rewrite (plain_never_raises _ _ _ Hp).
Qed.

Lemma findByFilter_plain_witness :
  plain timeline_body = true /\
  findByFilter timeline_body "cursorType" "Bottom"
  = ret (filter (matches "cursorType" "Bottom") (nodes timeline_body)).
Proof.
  split; [reflexivity|].
  apply (findByFilter_plain timeline_body "cursorType" "Bottom"). reflexivity.
Defined.

(** X2: the search of an array made of two parts is the search of the
    first part followed by the search of the second, and throws exactly
    when one of them throws. *)
Theorem findByFilter_append (xs ys : list JSON) (key value : string) :
  findByFilter (JArray (xs ++ ys)) key value
  = (do found_xs <- findByFilter (JArray xs) key value;
     do found_ys <- findByFilter (JArray ys) key value;
     ret (found_xs ++ found_ys)).
Proof.
  rewrite !findByFilter_searched. unfold searched.
  cbn [nodes existsb raises orb filter matches].
  rewrite flat_map_app, existsb_app, filter_app.
  destruct (existsb (raises key value) (flat_map nodes xs)); [reflexivity|].
  cbn [orb bind ret].
  destruct (existsb (raises key value) (flat_map nodes ys)); reflexivity.
Qed.

Lemma nodes_without_key (key value : string) (l : list JSON) :
  existsb (has_key key) l = false ->
  existsb (raises key value) l = existsb is_null l /\
  filter (matches key value) l = [].
Proof.
  induction l as [|n l IH]; [auto|]. cbn [existsb filter].
  intros H. apply orb_false_elim in H as [Hn Hl].
  destruct (IH Hl) as [-> ->].
  destruct n; cbn in Hn |- *; auto.
  unfold filter_test. rewrite Hn. auto.
Qed.

(** X3: when no object of the tree has an own entry [key], the search
    returns the empty list, unless the tree holds a [null], on which it
    throws all the same. *)
Theorem findByFilter_absent_key (T : JSON) (key value : string) :
  existsb (has_key key) (nodes T) = false ->
  findByFilter T key value
  = if existsb is_null (nodes T) then throw TypeError else ret [].
Proof.
  intros H. rewrite findByFilter_searched. unfold searched.
  destruct (nodes_without_key key value _ H) as [-> ->]. reflexivity.
Qed.

Lemma findByFilter_absent_key_witness :
  existsb (has_key "cursorType") (nodes lookup_body) = false /\
  findByFilter lookup_body "cursorType" "Bottom"
  = if existsb is_null (nodes lookup_body) then throw TypeError else ret [].
Proof.
  split; [reflexivity|].
  apply (findByFilter_absent_key lookup_body "cursorType" "Bottom"). reflexivity.
Defined.

(** * Properties of [findKeyByValue] *)

Lemma filterM_first {A : Type} (p : A -> result bool) (xs kept : list A) :
  filterM p xs = ret kept ->
  match hd_error kept with
  | Some x =>
      exists before after,
        xs = before ++ x :: after /\ p x = ret true /\
        Forall (fun y => p y = ret false) before
  | None => Forall (fun y => p y = ret false) xs
  end.
Proof.
  revert kept. induction xs as [|x xs IH]; intros kept.
  - cbn. intros H. inversion H. constructor.
  - cbn [filterM]. fold (filterM p xs).
    destruct (p x) as [e|keep] eqn:Hx; [discriminate|]. cbn [bind].
    destruct (filterM p xs) as [e|kept'] eqn:Hxs; [discriminate|]. cbn [bind ret].
    intros H. inversion H. subst kept. clear H. specialize (IH kept' eq_refl).
    destruct keep.
    + cbn [hd_error]. exists [], xs. repeat split; auto.
    + destruct (hd_error kept') as [y|].
      * destruct IH as (before & after & -> & Hy & Hb).
        exists (x :: before), after. repeat split; auto.
      * constructor; auto.
Qed.

(** X4: when [findKeyByValue] returns a key on an object, it is the key
    of the first entry, in the order of the entries, whose value is loosely
    equal to [value]; when it returns [undefined], no entry has such a
    value. *)
Theorem findKeyByValue_first
  (entries : list (string * JSON)) (value : string) (r : option string) :
  findKeyByValue (JObject entries) value = ret r ->
  match r with
  | Some k =>
      exists before v after,
        entries = before ++ (k, v) :: after /\
        looseEq (Some v) value = ret true /\
        Forall (fun kv => looseEq (Some (snd kv)) value = ret false) before
  | None => Forall (fun kv => looseEq (Some (snd kv)) value = ret false) entries
  end.
Proof.
  unfold findKeyByValue. cbn [Object_entries bind ret].
  destruct (filterM (fun kv => looseEq (Some (snd kv)) value) entries)
    as [e|matching] eqn:Hm; [discriminate|]. cbn [bind].
  pose proof (filterM_first _ _ _ Hm) as Hfirst.
  destruct (hd_error matching) as [[k v]|]; intros H; inversion H; subst r.
  - destruct Hfirst as (before & after & -> & Hv & Hb).
    exists before, v, after. auto.
  - exact Hfirst.
Qed.

Lemma findKeyByValue_first_witness :
  findKeyByValue (JObject [("LIKE", JString "like"); ("REPLY", JString "reply");
                           ("QUOTE", JString "reply")]) "reply"
  = ret (Some "REPLY") /\
  exists before v after,
    [("LIKE", JString "like"); ("REPLY", JString "reply"); ("QUOTE", JString "reply")]
    = before ++ ("REPLY", v) :: after /\
    looseEq (Some v) "reply" = ret true /\
    Forall (fun kv => looseEq (Some (snd kv)) "reply" = ret false) before.
Proof.
  split; [reflexivity|].
  apply (findKeyByValue_first
           [("LIKE", JString "like"); ("REPLY", JString "reply");
            ("QUOTE", JString "reply")] "reply" (Some "REPLY")).
  reflexivity.
Defined.

Lemma lookup_NoDup (entries : list (string * JSON)) (k : string) (v : JSON) :
  NoDup (map fst entries) -> In (k, v) entries -> lookup k entries = Some v.
Proof.
  induction entries as [|[k' v'] l IH]; [intros _ []|].
  cbn [map fst lookup]. intros Hnd Hin. inversion Hnd as [|? ? Hk' Hl]; subst.
  destruct Hin as [Heq|Hin].
  - inversion Heq; subst. now rewrite String.eqb_refl.
  - destruct (String.eqb k' k) eqn:Hkk; [|now apply IH].
    apply String.eqb_eq in Hkk. subst k'. exfalso. apply Hk'.
    change k with (fst (k, v)). now apply in_map.
Qed.

Lemma filterM_strings (entries : list (string * JSON)) (value : string) :
  string_valued entries ->
  filterM (fun kv => looseEq (Some (snd kv)) value) entries
  = ret (filter (fun kv => loosely (Some (snd kv)) value) entries).
Proof.
  induction 1 as [|[k v] l [s Hs] _ IH]; [reflexivity|].
  cbn [filterM filter]. fold (filterM (fun kv => looseEq (Some (snd kv)) value) l).
  cbn [snd] in Hs |- *. subst v. rewrite IH. unfold loosely. reflexivity.
Qed.

(** X5: on an object with distinct keys whose values are all strings, as
    an enumeration is, [findKeyByValue] finds every value that is stored: if
    [value] is stored under some key, a key is returned, and the value stored
    under the returned key is [value]. *)
Theorem findKeyByValue_round_trip
  (entries : list (string * JSON)) (k value : string) :
  string_valued entries ->
  NoDup (map fst entries) ->
  lookup k entries = Some (JString value) ->
  exists k',
    findKeyByValue (JObject entries) value = ret (Some k') /\
    lookup k' entries = Some (JString value).
Proof.
  intros Hs Hnd Hk. unfold findKeyByValue. cbn [Object_entries bind ret].
  rewrite (filterM_strings _ _ Hs). cbn [bind ret].
  destruct (lookup_In _ _ _ Hk) as [k0 Hin].
  assert (Hmatch : In (k0, JString value)
                      (filter (fun kv => loosely (Some (snd kv)) value) entries)).
  { apply filter_In. split; [exact Hin|].
    unfold loosely. cbn. apply String.eqb_refl. }
  destruct (filter (fun kv => loosely (Some (snd kv)) value) entries)
    as [|[k' v'] rest] eqn:Hf; [destruct Hmatch|].
  exists k'. split; [reflexivity|].
  assert (Hhead : In (k', v')
                     (filter (fun kv => loosely (Some (snd kv)) value) entries))
    by (rewrite Hf; now left).
  apply filter_In in Hhead as [Hin' Hv']. cbn [snd] in Hv'.
  unfold string_valued in Hs. rewrite Forall_forall in Hs.
  destruct (Hs _ Hin') as [s Hsv]. cbn [snd] in Hsv. subst v'.
  unfold loosely in Hv'. cbn in Hv'. apply String.eqb_eq in Hv'. subst s.
  exact (lookup_NoDup _ _ _ Hnd Hin').
Qed.

Lemma findKeyByValue_round_trip_witness :
  string_valued reactions /\
  NoDup (map fst reactions) /\
  lookup "REPLY" reactions = Some (JString "reply") /\
  exists k',
    findKeyByValue (JObject reactions) "reply" = ret (Some k') /\
    lookup k' reactions = Some (JString "reply").
Proof.
  assert (Hs : string_valued reactions)
    by (repeat constructor; eexists; reflexivity).
  assert (Hnd : NoDup (map fst reactions)).
  { repeat constructor; cbn; intuition discriminate. }
  split; [exact Hs|]. split; [exact Hnd|]. split; [reflexivity|].
  apply (findKeyByValue_round_trip reactions "REPLY" "reply" Hs Hnd).
  reflexivity.
Defined.

Lemma looseEq_not_convertible (x : Value) (value : string) :
  convertible x = false -> looseEq x value = throw TypeError.
Proof.
  unfold convertible. destruct (looseEq x "") as [e|b] eqn:He; [|discriminate].
  intros _. pose proof (looseEq_throws _ _ _ He). subst e.
  exact (looseEq_throws_always _ _ value _ He).
Qed.

(** X6: [findKeyByValue] tests every entry, also after a match: it throws
    a [TypeError] as soon as one value of the object is an array or object
    that cannot be converted to a primitive; and it throws on [null]. *)
Theorem findKeyByValue_throws (entries : list (string * JSON)) (value : string) :
  existsb (fun kv => negb (convertible (Some (snd kv)))) entries = true ->
  findKeyByValue (JObject entries) value = throw TypeError /\
  findKeyByValue JNull value = throw TypeError.
Proof.
  intros H. split; [|reflexivity].
  unfold findKeyByValue. cbn [Object_entries bind ret].
  assert (Hf : filterM (fun kv => looseEq (Some (snd kv)) value) entries
               = throw TypeError).
  { induction entries as [|kv l IH]; [discriminate|].
    cbn [existsb] in H. cbn [filterM].
    fold (filterM (fun kv => looseEq (Some (snd kv)) value) l).
    destruct (convertible (Some (snd kv))) eqn:Hc.
    - cbn [negb orb] in H. rewrite (looseEq_convertible _ value Hc), (IH H).
      reflexivity.
    - now rewrite (looseEq_not_convertible _ value Hc). }
  now rewrite Hf.
Qed.

Lemma findKeyByValue_throws_witness :
  existsb (fun kv => negb (convertible (Some (snd kv))))
          [("first", JString "x"); ("second", JObject [("toString", JNull)])]
  = true /\
  findKeyByValue (JObject [("first", JString "x");
                           ("second", JObject [("toString", JNull)])]) "x"
  = throw TypeError /\
  findKeyByValue JNull "x" = throw TypeError.
Proof.
  split; [reflexivity|].
  apply (findKeyByValue_throws
           [("first", JString "x"); ("second", JObject [("toString", JNull)])] "x").
  reflexivity.
Defined.

(** * Properties of [normalizeText] *)

Lemma ends_with_full_stop_append (s : string) :
  ends_with_full_stop (s ++ ".") = true.
Proof.
  induction s as [|c r IH]; [reflexivity|].
  cbn [String.append]. destruct r; [reflexivity|exact IH].
Qed.

(** X7: the text [normalizeText] returns always ends with a full stop. *)
Theorem normalizeText_ends_with_full_stop (text : string) :
  ends_with_full_stop (normalizeText text) = true.
Proof.
  unfold normalizeText.
  destruct (ends_with_full_stop
              (collapse (String.length (replace_newlines text))
                        (replace_newlines text))) eqn:He.
  - exact He.
  - apply ends_with_full_stop_append.
Qed.

Lemma occurs_replace_newlines (text : string) :
  occurs line_feed (replace_newlines text) = false.
Proof.
  induction text as [|c r IH]; [reflexivity|].
  cbn [replace_newlines occurs]. rewrite IH, orb_false_r.
  destruct (Ascii.eqb c line_feed) eqn:Hc; [reflexivity|exact Hc].
Qed.

Lemma occurs_skip (c : ascii) (n : nat) (s : string) :
  occurs c s = false -> occurs c (Number.skip n s) = false.
Proof.
  revert s. induction n as [|n IH]; intros s H; [now destruct s|].
  destruct s as [|a r]; [reflexivity|]. cbn [Number.skip].
  cbn [occurs] in H. apply orb_false_elim in H as [_ H]. now apply IH.
Qed.

Lemma occurs_drop_class (c : ascii) (fuel : nat) (s : string) :
  occurs c s = false -> occurs c (drop_class fuel s) = false.
Proof.
  revert s. induction fuel as [|fuel IH]; intros s H; [exact H|].
  cbn [drop_class]. destruct (class_width s); [exact H|].
  apply IH. now apply occurs_skip.
Qed.

Lemma occurs_collapse (fuel : nat) (s : string) :
  occurs line_feed s = false -> occurs line_feed (collapse fuel s) = false.
Proof.
  revert s. induction fuel as [|fuel IH]; intros s H; [exact H|].
  cbn [collapse]. destruct s as [|c r]; [reflexivity|].
  cbn [occurs] in H. apply orb_false_elim in H as [Hc Hr].
  destruct (Ascii.eqb c full_stop); [destruct (class_width r)|];
    cbn [occurs]; rewrite ?Hc; cbn [orb];
    try (apply IH; exact Hr).
  apply IH. now apply occurs_drop_class.
Qed.

Lemma occurs_append (c : ascii) (s t : string) :
  occurs c (s ++ t) = occurs c s || occurs c t.
Proof.
  induction s as [|a r IH]; [reflexivity|].
  cbn [String.append occurs]. now rewrite IH, orb_assoc.
Qed.

(** X8: the text [normalizeText] returns holds no line feed. *)
Theorem normalizeText_no_line_feed (text : string) :
  occurs line_feed (normalizeText text) = false.
Proof.
  unfold normalizeText.
  pose proof (occurs_collapse (String.length (replace_newlines text)) _
                              (occurs_replace_newlines text)) as H.
  destruct (ends_with_full_stop _); [exact H|].
  now rewrite occurs_append, H.
Qed.

Lemma doubled_full_stop_cons (a : ascii) (s : string) :
  doubled_full_stop (String a s)
  = (Ascii.eqb a full_stop && starts_with_full_stop s) || doubled_full_stop s.
Proof. destruct s; cbn; [now rewrite andb_false_r|reflexivity]. Qed.

Lemma length_skip (n : nat) (s : string) :
  String.length (Number.skip n s) <= String.length s.
Proof.
  revert s. induction n as [|n IH]; intros s; [destruct s; cbn; lia|].
  destruct s as [|a r]; cbn [Number.skip String.length]; [lia|].
  specialize (IH r). lia.
Qed.

Lemma length_drop_class (fuel : nat) (s : string) :
  String.length (drop_class fuel s) <= String.length s.
Proof.
  revert s. induction fuel as [|fuel IH]; intros s; [cbn; lia|].
  cbn [drop_class]. destruct (class_width s) as [|w]; [lia|].
  pose proof (IH (Number.skip (S w) s)). pose proof (length_skip (S w) s). lia.
Qed.

Lemma class_width_full_stop (s : string) :
  class_width s = 0 -> starts_with_full_stop s = false.
Proof.
  destruct s as [|c r]; [reflexivity|]. cbn [class_width starts_with_full_stop].
  destruct (Ascii.eqb c full_stop); [discriminate|reflexivity].
Qed.

Lemma collapse_empty (fuel : nat) : collapse fuel "" = "".
Proof. destruct fuel; reflexivity. Qed.

Lemma collapse_separates (fuel : nat) :
  forall s,
    String.length s <= fuel ->
    doubled_full_stop (collapse fuel s) = false /\
    starts_with_full_stop (collapse fuel s) = starts_with_full_stop s.
Proof.
  induction fuel as [|fuel IH]; intros s Hlen.
  - destruct s; [auto|cbn in Hlen; lia].
  - destruct s as [|c r]; [auto|]. cbn [String.length] in Hlen.
    assert (Hr : String.length r <= fuel) by lia.
    cbn [collapse]. destruct (Ascii.eqb c full_stop) eqn:Hc.
    + destruct (class_width r) as [|w] eqn:Hw.
      * destruct (IH r Hr) as [Hd Hs].
        rewrite doubled_full_stop_cons, Hd, Hs, (class_width_full_stop _ Hw), Hc.
        cbn [starts_with_full_stop]. rewrite Hc. auto.
      * pose proof (length_drop_class (String.length r) r) as Hdrop.
        destruct (IH (drop_class (String.length r) r) ltac:(lia)) as [Hd _].
        rewrite !doubled_full_stop_cons, Hd. cbn [starts_with_full_stop].
        split; [reflexivity|]. now rewrite Hc.
    + destruct (IH r Hr) as [Hd Hs].
      rewrite doubled_full_stop_cons, Hd, Hc. cbn [starts_with_full_stop].
      now rewrite Hc.
Qed.

Lemma doubled_full_stop_append (s : string) :
  doubled_full_stop (s ++ ".") = doubled_full_stop s || ends_with_full_stop s.
Proof.
  induction s as [|a r IH]; [reflexivity|].
  cbn [String.append]. rewrite !doubled_full_stop_cons, IH.
  destruct r as [|b r']; cbn [String.append starts_with_full_stop
                                doubled_full_stop ends_with_full_stop].
  - destruct (Ascii.eqb a full_stop); reflexivity.
  - destruct (Ascii.eqb a full_stop && Ascii.eqb b full_stop); cbn [orb];
      reflexivity.
Qed.

(** X9: in the text [normalizeText] returns no two full stops stand next
    to each other. *)
Theorem normalizeText_no_doubled_full_stop (text : string) :
  doubled_full_stop (normalizeText text) = false.
Proof.
  unfold normalizeText.
  destruct (collapse_separates (String.length (replace_newlines text))
                               (replace_newlines text) (Nat.le_refl _)) as [Hd _].
  destruct (ends_with_full_stop _) eqn:He; [exact Hd|].
  now rewrite doubled_full_stop_append, Hd, He.
Qed.

Lemma replace_newlines_none (text : string) :
  occurs line_feed text = false -> replace_newlines text = text.
Proof.
  induction text as [|c r IH]; [reflexivity|]. cbn [occurs replace_newlines].
  intros H. apply orb_false_elim in H as [Hc Hr]. now rewrite Hc, IH.
Qed.

Lemma collapse_none (fuel : nat) (s : string) :
  occurs full_stop s = false -> collapse fuel s = s.
Proof.
  revert s. induction fuel as [|fuel IH]; intros s H; [reflexivity|].
  destruct s as [|c r]; [reflexivity|]. cbn [occurs] in H.
  apply orb_false_elim in H as [Hc Hr]. cbn [collapse]. now rewrite Hc, IH.
Qed.

Lemma ends_with_full_stop_occurs (s : string) :
  occurs full_stop s = false -> ends_with_full_stop s = false.
Proof.
  induction s as [|c r IH]; [reflexivity|]. cbn [occurs].
  intros H. apply orb_false_elim in H as [Hc Hr].
  cbn [ends_with_full_stop]. destruct r; [exact Hc|now apply IH].
Qed.

(** X10: a text that holds neither a line feed nor a full stop comes back
    as it is with one full stop added at the end. *)
Theorem normalizeText_plain_text (text : string) :
  occurs line_feed text = false ->
  occurs full_stop text = false ->
  normalizeText text = (text ++ ".")%string.
Proof.
  intros Hn Hd. unfold normalizeText.
  rewrite (replace_newlines_none _ Hn), (collapse_none _ _ Hd).
  now rewrite (ends_with_full_stop_occurs _ Hd).
Qed.

Lemma normalizeText_plain_text_witness :
  occurs line_feed "good morning" = false /\
  occurs full_stop "good morning" = false /\
  normalizeText "good morning" = ("good morning" ++ ".")%string.
Proof.
  split; [reflexivity|]. split; [reflexivity|].
  apply (normalizeText_plain_text "good morning"); reflexivity.
Defined.

(** * Further properties of the fetcher service *)

Section Requests.
Variable axios : AxiosRequestConfig -> result JSON.
Variable getGuestCredential : result AuthCredential.
Variable handle : Exn -> result unit.

Lemma request_this (config : Request) (st : State) :
  this (snd (request axios getGuestCredential handle config st))
  = after_request getGuestCredential (this st) (endpoint config).
Proof.
  destruct (request axios getGuestCredential handle config st) as [r st'] eqn:Hrun.
  cbn [fst snd]. unfold request in Hrun. unfold andThen at 1 in Hrun.
  destruct (checkAuthorization_run (endpoint config) st) as (H1 & H2 & H3).
  destruct (checkAuthorization (endpoint config) st) as [r1 st1].
  cbn [fst snd] in H1, H2, H3. unfold after_request.
  destruct (denied (this st) (endpoint config)); subst r1.
  - inversion Hrun; subst. exact H2.
  - unfold ret in Hrun. unfold andThen, read, call, lift, set_cred, pure, raise in Hrun.
    cbn in Hrun. rewrite H2 in Hrun.
    destruct (cred (this st)) as [c|]; cbn in Hrun |- *.
    + destruct (axios {| config := config; headers := c |}) as [e|data];
        cbn in Hrun; [destruct (handle e) as [e'|[]]; cbn in Hrun|];
        inversion Hrun; subst; cbn; auto.
    + destruct getGuestCredential as [e|c]; cbn in Hrun |- *;
        [inversion Hrun; subst; cbn; auto|].
      unfold with_cred. rewrite <- H2.
      destruct (axios {| config := config; headers := c |}) as [e|data];
        cbn in Hrun; [destruct (handle e) as [e'|[]]; cbn in Hrun|];
        inversion Hrun; subst; cbn; auto.
Qed.

Lemma fetch_this (type : EResourceType) (args : Args) (st : State) :
  this (snd (fetch axios getGuestCredential handle type args st))
  = after_request getGuestCredential (this st) type.
Proof.
  destruct (fetch axios getGuestCredential handle type args st) as [r st'] eqn:Hrun.
  cbn [fst snd]. unfold fetch in Hrun. unfold andThen at 1 in Hrun.
  destruct (log (FETCH type args) st) as [r0 st0] eqn:Hlog.
  unfold log in Hlog. inversion Hlog as [[Hr Hst]].
  assert (Hthis : this st0 = this st) by (now subst st0).
  clear Hlog Hst. subst r0. unfold ret in Hrun.
  unfold andThen at 1 in Hrun.
  pose proof (request_this (new_Request type args) st0) as H1.
  destruct (request axios getGuestCredential handle (new_Request type args) st0)
    as [[e|data] st1]; cbn [fst snd endpoint] in H1; rewrite Hthis in H1.
  - inversion Hrun; subst. exact H1.
  - unfold andThen, lift in Hrun.
    destruct (extractData data type) as [e|ex]; [inversion Hrun; subst; exact H1|].
    destruct (deserializeData_run (fst ex) (snd ex) st1) as (_ & G2 & _).
    rewrite Hrun in G2. cbn [snd] in G2. now rewrite G2.
Qed.

Lemma issued_http (self : FetcherService) (config : Request) :
  filter is_http (issued getGuestCredential self config)
  = http_calls getGuestCredential self config.
Proof.
  unfold issued, http_calls, credential.
  destruct (denied self (endpoint config)); [reflexivity|].
  destruct (cred self); [reflexivity|]. destruct getGuestCredential; reflexivity.
Qed.

(** X11: one [fetch] makes at most one HTTP call and never repeats it:
    none when the request is refused or the guest login fails, and otherwise
    exactly the one for its request, whether the transport answers or
    rejects and whether extraction and deserialization then throw or not. *)
Theorem fetch_single_http_call (type : EResourceType) (args : Args) (st : State) :
  filter is_http (network (snd (fetch axios getGuestCredential handle type args st)))
  = http_calls getGuestCredential (this st) (new_Request type args)
    ++ filter is_http (network st).
Proof.
  destruct (fetch_run axios getGuestCredential handle type args st) as (_ & ->).
  now rewrite filter_app, issued_http.
Qed.

(** X12: when the transport rejects the request, [fetch] and [post] throw
    what the transport rejected with, unless the error handler throws, and
    then they throw what the handler threw. *)
Theorem transport_error_propagates
  (type : EResourceType) (args : Args) (st : State) (c : AuthCredential) (e : Exn) :
  denied (this st) type = false ->
  credential getGuestCredential (this st) = ret c ->
  axios {| config := new_Request type args; headers := c |} = throw e ->
  fst (fetch axios getGuestCredential handle type args st)
  = match handle e with
    | inl e' => throw e'
    | inr _ => throw e
    end /\
  fst (post axios getGuestCredential handle type args st)
  = match handle e with
    | inl e' => throw e'
    | inr _ => throw e
    end.
Proof.
  intros Hd Hc Ha.
  destruct (fetch_run axios getGuestCredential handle type args st) as (-> & _).
  destruct (post_run axios getGuestCredential handle type args st) as (-> & _).
  unfold fetched, respond. rewrite Hd, Hc. cbn [bind ret]. rewrite Ha.
  unfold throw, bind. destruct (handle e) as [e'|[]]; split; reflexivity.
Qed.

(** X13: when the instance has no credential and the guest login fails,
    [fetch] of a kind that passes the check throws the error of the login,
    makes no HTTP call, and leaves the instance without credential. *)
Theorem guest_login_failure
  (type : EResourceType) (args : Args) (st : State) (e : Exn) :
  denied (this st) type = false ->
  cred (this st) = None ->
  getGuestCredential = throw e ->
  fst (fetch axios getGuestCredential handle type args st) = throw e /\
  network (snd (fetch axios getGuestCredential handle type args st))
  = GuestLoginCall :: network st /\
  this (snd (fetch axios getGuestCredential handle type args st)) = this st.
Proof.
  intros Hd Hc Hg.
  destruct (fetch_run axios getGuestCredential handle type args st) as (-> & ->).
  rewrite fetch_this. unfold fetched, issued, credential, after_request.
  cbn [endpoint]. rewrite Hd, Hc, Hg. auto.
Qed.

(** X15: [post] does not look at the body: whenever the request passes
    the check and the transport answers it, with whatever body, [post]
    returns [true]. *)
Theorem post_succeeds
  (type : EResourceType) (args : Args) (st : State) (c : AuthCredential)
  (data : JSON) :
  denied (this st) type = false ->
  credential getGuestCredential (this st) = ret c ->
  axios {| config := new_Request type args; headers := c |} = ret data ->
  fst (post axios getGuestCredential handle type args st) = ret true.
Proof.
  intros Hd Hc Ha.
  destruct (post_run axios getGuestCredential handle type args st) as (-> & _).
  unfold respond. rewrite Hd, Hc. cbn [bind ret]. now rewrite Ha.
Qed.
End Requests.

Lemma transport_error_propagates_witness :
  denied (this user_instance) TWEET_SEARCH = false /\
  credential no_guest_login (this user_instance) = ret (UserCredential "a2V5") /\
  rejecting (TransportError 503)
            {| config := new_Request TWEET_SEARCH [];
               headers := UserCredential "a2V5" |}
  = throw (TransportError 503) /\
  fst (fetch (rejecting (TransportError 503)) no_guest_login classifying
             TWEET_SEARCH [] user_instance)
  = throw (TransportError 429) /\
  fst (post (rejecting (TransportError 503)) no_guest_login classifying
            TWEET_SEARCH [] user_instance)
  = throw (TransportError 429).
Proof.
  repeat (split; [reflexivity|]).
  apply (transport_error_propagates
           (rejecting (TransportError 503)) no_guest_login classifying
           TWEET_SEARCH [] user_instance (UserCredential "a2V5")
           (TransportError 503));
    reflexivity.
Defined.

Lemma guest_login_failure_witness :
  denied (this (start None)) TWEET_DETAILS = false /\
  cred (this (start None)) = None /\
  no_guest_login = throw (TransportError 0) /\
  fst (fetch (answering lookup_body) no_guest_login rethrow TWEET_DETAILS []
             (start None))
  = throw (TransportError 0) /\
  network (snd (fetch (answering lookup_body) no_guest_login rethrow
                      TWEET_DETAILS [] (start None)))
  = GuestLoginCall :: network (start None) /\
  this (snd (fetch (answering lookup_body) no_guest_login rethrow
                   TWEET_DETAILS [] (start None)))
  = this (start None).
Proof.
  repeat (split; [reflexivity|]).
  apply (guest_login_failure (answering lookup_body) no_guest_login rethrow
                             TWEET_DETAILS [] (start None) (TransportError 0));
    reflexivity.
Defined.

Lemma post_succeeds_witness :
  denied (this user_instance) CREATE_TWEET = false /\
  credential no_guest_login (this user_instance) = ret (UserCredential "a2V5") /\
  answering JNull
            {| config := new_Request CREATE_TWEET [("tweetText", Some (JString "hi"))];
               headers := UserCredential "a2V5" |}
  = ret JNull /\
  fst (post (answering JNull) no_guest_login rethrow CREATE_TWEET
            [("tweetText", Some (JString "hi"))] user_instance)
  = ret true.
Proof.
  repeat (split; [reflexivity|]).
  apply (post_succeeds (answering JNull) no_guest_login rethrow CREATE_TWEET
                       [("tweetText", Some (JString "hi"))] user_instance
                       (UserCredential "a2V5") JNull);
    reflexivity.
Defined.

(** * The constructor and the check *)

(** X16: an instance constructed with a non-empty API key passes the
    check for every resource kind, and its requests go out with the
    credential of that key in one HTTP call, without guest login, whatever
    guest key the configuration also holds. *)
Theorem api_key_instance
  (axios : AxiosRequestConfig -> result JSON) (g : result AuthCredential)
  (h : Exn -> result unit) (key : string) (guest : option string)
  (type : EResourceType) (args : Args) :
  nonempty (Some key) = true ->
  fst (checkAuthorization type (start (keys (Some key) guest))) = ret tt /\
  network (snd (fetch axios g h type args (start (keys (Some key) guest))))
  = [HttpCall {| config := new_Request type args; headers := UserCredential key |}].
Proof.
  intros Hkey.
  destruct (checkAuthorization_run type (start (keys (Some key) guest)))
    as (-> & _).
  destruct (fetch_run axios g h type args (start (keys (Some key) guest)))
    as (_ & ->).
  unfold issued, denied, start, keys, new_FetcherService.
  cbn [this cred isAuthenticated apiKey guestKey endpoint network].
  rewrite Hkey. cbn. rewrite andb_false_r. auto.
Qed.

Lemma api_key_instance_witness :
  nonempty (Some "a2V5") = true /\
  fst (checkAuthorization USER_FOLLOWERS (start (keys (Some "a2V5") (Some "guest"))))
  = ret tt /\
  network (snd (fetch (answering timeline_body) no_guest_login rethrow
                      USER_FOLLOWERS [] (start (keys (Some "a2V5") (Some "guest")))))
  = [HttpCall {| config := new_Request USER_FOLLOWERS [];
                 headers := UserCredential "a2V5" |}].
Proof.
  split; [reflexivity|].
  apply (api_key_instance (answering timeline_body) no_guest_login rethrow
                          "a2V5" (Some "guest") USER_FOLLOWERS []).
  reflexivity.
Defined.

(** X17: a guest key gives the instance a credential but no
    authorization: constructed with a guest key and no API key, it sends the
    guest-allowed kinds with the credential of that key in one HTTP call,
    without guest login, and is refused every other kind before any network
    call. *)
Theorem guest_key_instance
  (axios : AxiosRequestConfig -> result JSON) (g : result AuthCredential)
  (h : Exn -> result unit) (api : option string) (guest : string)
  (type : EResourceType) (args : Args) :
  nonempty api = false ->
  nonempty (Some guest) = true ->
  if guest_allowed type then
    network (snd (fetch axios g h type args (start (keys api (Some guest)))))
    = [HttpCall {| config := new_Request type args;
                   headers := GuestCredential guest |}]
  else
    fst (fetch axios g h type args (start (keys api (Some guest))))
    = throw RESOURCE_NOT_ALLOWED /\
    network (snd (fetch axios g h type args (start (keys api (Some guest))))) = [].
Proof.
  intros Hapi Hguest.
  destruct (fetch_run axios g h type args (start (keys api (Some guest))))
    as (-> & ->).
  unfold fetched, issued, denied, start, keys, new_FetcherService.
  cbn [this cred isAuthenticated apiKey guestKey endpoint network].
  rewrite Hapi, Hguest. cbn.
  destruct (guest_allowed type); cbn; auto.
Qed.

Lemma guest_key_instance_witness :
  nonempty None = false /\
  nonempty (Some "Z3Vlc3Q") = true /\
  fst (fetch (answering timeline_body) no_guest_login rethrow TWEET_SEARCH []
             (start (keys None (Some "Z3Vlc3Q"))))
  = throw RESOURCE_NOT_ALLOWED /\
  network (snd (fetch (answering timeline_body) no_guest_login rethrow TWEET_SEARCH []
                      (start (keys None (Some "Z3Vlc3Q"))))) = [].
Proof.
  split; [reflexivity|]. split; [reflexivity|].
  apply (guest_key_instance (answering timeline_body) no_guest_login rethrow
                            None "Z3Vlc3Q" TWEET_SEARCH []);
    reflexivity.
Defined.

(** * Further properties of extraction and of the public methods *)

Lemma fragments_nodes
  (data : JSON) (type : EResourceType) (required : list Value) :
  fragments data type = ret required ->
  Forall (fun item => match item with
                      | Some n => In n (nodes data)
                      | None => True
                      end) required.
Proof.
  unfold fragments. destruct (entity_tag type) as [tag|].
  - destruct (findByFilter data "__typename" tag) as [e|found] eqn:Hf;
      [discriminate|]. cbn. intros H. inversion H. subst.
    apply search_returns in Hf as [_ ->].
    apply Forall_forall. intros item Hitem.
    apply in_map_iff in Hitem as (n & <- & Hn). now apply filter_In in Hn.
  - destruct (container type) as [[tag results]|];
      [|intros H; inversion H; constructor].
    destruct (findByFilter data "__typename" tag) as [e|found] eqn:Hf;
      [discriminate|]. cbn [bind].
    apply search_returns in Hf as [_ ->].
    assert (Hin : Forall (fun n => In n (nodes data))
                         (filter (matches "__typename" tag) (nodes data))).
    { apply Forall_forall. intros n Hn. now apply filter_In in Hn. }
    revert required Hin.
    induction (filter (matches "__typename" tag) (nodes data)) as [|item rest IH];
      intros required Hin.
    + cbn. intros Heq. inversion Heq. constructor.
    + cbn [mapM]. fold (mapM (unwrap results) rest).
      inversion Hin as [|? ? Hitem Hrest]; subst.
      destruct (unwrap results item) as [e|r] eqn:Hr; [discriminate|].
      cbn [bind]. destruct (mapM (unwrap results) rest) as [e|rs]; [discriminate|].
      cbn [bind ret]. intros Heq. inversion Heq. subst.
      constructor; [|exact (IH rs Hrest eq_refl)].
      pose proof (unwrap_node _ _ _ Hr) as Hnode.
      destruct r as [n|]; [|exact I].
      exact (nodes_trans _ _ _ Hitem Hnode).
Qed.

Lemma entity_of_sound (item : Value) (e : Entity) :
  In e (entity_of item) ->
  item = Some (Entity_raw e) /\ truthy (Entity_id e) = true.
Proof.
  unfold entity_of. destruct item as [raw|]; [|intros []].
  assert (Hid : truthy (field (Some raw) "rest_id") = true ->
                forall e', Entity_raw e' = raw -> truthy (Entity_id e') = true).
  { intros Ht e' <-. unfold Entity_id. destruct (Entity_raw e'); exact Ht. }
  destruct (is_post (Some raw)) eqn:Hp.
  - intros [<-|[]]. split; [reflexivity|]. apply Hid; [|reflexivity].
    unfold is_post in Hp. now apply andb_prop in Hp as [_ Hp].
  - destruct (is_account (Some raw)) eqn:Ha; [|intros []].
    intros [<-|[]]. split; [reflexivity|]. apply Hid; [|reflexivity].
    unfold is_account in Ha. apply andb_prop in Ha as [Ha _].
    now apply andb_prop in Ha as [_ Ha].
Qed.

(** X18: every entity [fetch] returns is built from an object that
    occurs in the response body, and has a truthy [rest_id]. *)
Theorem fetch_entities_from_body
  (axios : AxiosRequestConfig -> result JSON) (g : result AuthCredential)
  (h : Exn -> result unit) (type : EResourceType) (args : Args) (st : State)
  (c : AuthCredential) (data : JSON) (r : CursoredData.t) :
  credential g (this st) = ret c ->
  axios {| config := new_Request type args; headers := c |} = ret data ->
  fst (fetch axios g h type args st) = ret r ->
  Forall (fun e => In (Entity_raw e) (nodes data) /\ truthy (Entity_id e) = true)
         (CursoredData.list r).
Proof.
  intros Hc Ha Hr.
  destruct (fetch_run axios g h type args st) as (Hrun & _).
  rewrite Hr in Hrun.
  destruct (denied (this st) type) eqn:Hd;
    [unfold fetched in Hrun; rewrite Hd in Hrun; discriminate|].
  destruct (extractData data type) as [e|[required next]] eqn:He.
  { unfold fetched, respond in Hrun. rewrite Hd, Hc in Hrun. cbn [bind ret] in Hrun.
    rewrite Ha in Hrun. cbn [bind ret] in Hrun. rewrite He in Hrun. discriminate. }
  rewrite (fetched_entities _ _ _ _ _ _ _ _ _ _ Hd Hc Ha He) in Hrun.
  inversion Hrun. subst r. cbn [CursoredData.list].
  apply extractData_returns in He as [Hf _].
  pose proof (fragments_nodes _ _ _ Hf) as Hnodes. rewrite Forall_forall in Hnodes.
  apply Forall_forall. intros e He. apply in_flat_map in He as (item & Hitem & He).
  destruct (entity_of_sound _ _ He) as [-> Hid].
  split; [exact (Hnodes _ Hitem)|exact Hid].
Qed.

Lemma fetch_entities_from_body_witness :
  credential (ret GuestLogin) (this (start None)) = ret GuestLogin /\
  answering timeline_body
            {| config := new_Request USER_TWEETS []; headers := GuestLogin |}
  = ret timeline_body /\
  fst (fetch (answering timeline_body) (ret GuestLogin) rethrow USER_TWEETS []
             (start None))
  = ret (CursoredData.new [Tweet (post_fragment "1"); Tweet (post_fragment "2")]
                          (JString "abc|")) /\
  Forall (fun e => In (Entity_raw e) (nodes timeline_body)
                   /\ truthy (Entity_id e) = true)
         [Tweet (post_fragment "1"); Tweet (post_fragment "2")].
Proof.
  repeat (split; [reflexivity|]).
  apply (fetch_entities_from_body
           (answering timeline_body) (ret GuestLogin) rethrow USER_TWEETS []
           (start None) GuestLogin timeline_body
           (CursoredData.new [Tweet (post_fragment "1"); Tweet (post_fragment "2")]
                             (JString "abc|")));
    reflexivity.
Defined.

Lemma extractData_plain (data : JSON) (type : EResourceType) :
  plain data = true ->
  extractData data type
  = (do required <- fragments data type;
     ret (required, first_cursor_value data)).
Proof.
  intros Hp. rewrite extractData_parts.
  destruct (fragments data type) as [e|required]; [reflexivity|]. cbn [bind].
  rewrite (findByFilter_searched "cursorType" "Bottom"). unfold searched.
  rewrite (plain_never_raises _ _ _ Hp). cbn [bind ret].
  unfold first_cursor_value, bottom_cursors.
  destruct (filter (matches "cursorType" "Bottom") (nodes data))
    as [|first rest] eqn:Hf; [reflexivity|].
  assert (Hin : In first (filter (matches "cursorType" "Bottom") (nodes data)))
    by (rewrite Hf; now left).
  apply filter_In in Hin as [_ Hm].
  destruct (matches_object _ _ _ Hm) as [entries ->]. reflexivity.
Qed.

(** X19: for a kind [extractData] has no branch for, the kinds that are
    posted, [fetch] returns no entity whatever the body holds: on a body
    without [null] and without own [toString] entries it returns the empty
    list with the cursor of the body. *)
Theorem fetch_unlisted_kind
  (axios : AxiosRequestConfig -> result JSON) (g : result AuthCredential)
  (h : Exn -> result unit) (type : EResourceType) (args : Args) (st : State)
  (c : AuthCredential) (data : JSON) :
  entity_tag type = None ->
  container type = None ->
  denied (this st) type = false ->
  credential g (this st) = ret c ->
  axios {| config := new_Request type args; headers := c |} = ret data ->
  plain data = true ->
  fst (fetch axios g h type args st)
  = ret (CursoredData.new [] (default_next (first_cursor_value data))).
Proof.
  intros Ht Hk Hd Hc Ha Hp.
  destruct (fetch_run axios g h type args st) as (-> & _).
  assert (He : extractData data type = ret ([], first_cursor_value data)).
  { rewrite (extractData_plain _ _ Hp). unfold fragments. now rewrite Ht, Hk. }
  now rewrite (fetched_entities _ _ _ _ _ _ _ _ _ _ Hd Hc Ha He).
Qed.

Lemma fetch_unlisted_kind_witness :
  entity_tag FAVORITE_TWEET = None /\
  container FAVORITE_TWEET = None /\
  denied (this user_instance) FAVORITE_TWEET = false /\
  credential no_guest_login (this user_instance) = ret (UserCredential "a2V5") /\
  answering timeline_body
            {| config := new_Request FAVORITE_TWEET [];
               headers := UserCredential "a2V5" |}
  = ret timeline_body /\
  plain timeline_body = true /\
  fst (fetch (answering timeline_body) no_guest_login rethrow FAVORITE_TWEET []
             user_instance)
  = ret (CursoredData.new [] (JString "abc|")).
Proof.
  repeat (split; [reflexivity|]).
  apply (fetch_unlisted_kind (answering timeline_body) no_guest_login rethrow
                             FAVORITE_TWEET [] user_instance
                             (UserCredential "a2V5") timeline_body);
    reflexivity.
Defined.

(** X20: [details(id)] does not compare the post it returns with [id]:
    on a body without [null] and without own [toString] entries it returns
    the first object in traversal order that is tagged [Tweet] and has a
    truthy [rest_id], so a post nested in the requested one when that one
    has no [rest_id]. *)
Theorem details_first_post
  (axios : AxiosRequestConfig -> result JSON) (g : result AuthCredential)
  (h : Exn -> result unit) (id : string) (st : State)
  (c : AuthCredential) (data : JSON) :
  credential g (this st) = ret c ->
  axios {| config := new_Request TWEET_DETAILS [("id", Some (JString id))];
           headers := c |} = ret data ->
  plain data = true ->
  fst (details axios g h id st)
  = ret (hd_error
           (flat_map entity_of
                     (map Some (filter (matches "__typename" "Tweet") (nodes data))))).
Proof.
  intros Hc Ha Hp.
  assert (Hd : denied (this st) TWEET_DETAILS = false) by reflexivity.
  assert (He : extractData data TWEET_DETAILS
               = ret (map Some (filter (matches "__typename" "Tweet") (nodes data)),
                      first_cursor_value data)).
  { rewrite (extractData_plain _ _ Hp). unfold fragments. cbn [entity_tag].
    cbn. rewrite (findByFilter_searched "__typename" "Tweet"). unfold searched.
    now rewrite (plain_never_raises _ _ _ Hp). }
  now rewrite details_run, (fetched_entities _ _ _ _ _ _ _ _ _ _ Hd Hc Ha He).
Qed.

Lemma details_first_post_witness :
  credential (ret GuestLogin) (this (start None)) = ret GuestLogin /\
  answering quoting_body
            {| config := new_Request TWEET_DETAILS [("id", Some (JString "1"))];
               headers := GuestLogin |}
  = ret quoting_body /\
  plain quoting_body = true /\
  fst (details (answering quoting_body) (ret GuestLogin) rethrow "1" (start None))
  = ret (Some (Tweet (post_fragment "9"))).
Proof.
  repeat (split; [reflexivity|]).
  apply (details_first_post (answering quoting_body) (ret GuestLogin) rethrow "1"
                            (start None) GuestLogin quoting_body);
    reflexivity.
Defined.

Lemma andThen_pure {A : Type} (m : Method A) (st : State) :
  andThen m pure st = m st.
Proof. unfold andThen, pure. destruct (m st) as [[e|a] st']; reflexivity. Qed.

(** X21: on an instance without API key, [tweet], [favorite], [retweet],
    [favoriters] and [retweeters] all fail with the authorization error,
    and none of them makes a network call. *)
Theorem guest_cannot_write
  (axios : AxiosRequestConfig -> result JSON) (g : result AuthCredential)
  (h : Exn -> result unit) (text tweetId : string) (count cursor : Value)
  (st : State) :
  isAuthenticated (this st) = false ->
  (fst (tweet axios g h text st) = throw RESOURCE_NOT_ALLOWED /\
   network (snd (tweet axios g h text st)) = network st) /\
  (fst (favorite axios g h tweetId st) = throw RESOURCE_NOT_ALLOWED /\
   network (snd (favorite axios g h tweetId st)) = network st) /\
  (fst (retweet axios g h tweetId st) = throw RESOURCE_NOT_ALLOWED /\
   network (snd (retweet axios g h tweetId st)) = network st) /\
  (fst (favoriters axios g h tweetId count cursor st) = throw RESOURCE_NOT_ALLOWED /\
   network (snd (favoriters axios g h tweetId count cursor st)) = network st) /\
  (fst (retweeters axios g h tweetId count cursor st) = throw RESOURCE_NOT_ALLOWED /\
   network (snd (retweeters axios g h tweetId count cursor st)) = network st).
Proof.
  intros Hguest.
  unfold tweet, favorite, retweet, favoriters, retweeters.
  rewrite !andThen_pure.
  repeat match goal with
         | |- context [post axios g h ?t ?a st] =>
             destruct (post_run axios g h t a st) as (-> & ->)
         | |- context [fetch axios g h ?t ?a st] =>
             destruct (fetch_run axios g h t a st) as (-> & ->)
         end.
  unfold fetched, issued, denied. cbn [endpoint]. rewrite Hguest. cbn.
  repeat split; reflexivity.
Qed.

Lemma guest_cannot_write_witness :
  isAuthenticated (this (start None)) = false /\
  ((fst (tweet (answering lookup_body) (ret GuestLogin) rethrow "hi" (start None))
    = throw RESOURCE_NOT_ALLOWED /\
    network (snd (tweet (answering lookup_body) (ret GuestLogin) rethrow "hi"
                        (start None)))
    = network (start None)) /\
   (fst (favorite (answering lookup_body) (ret GuestLogin) rethrow "1" (start None))
    = throw RESOURCE_NOT_ALLOWED /\
    network (snd (favorite (answering lookup_body) (ret GuestLogin) rethrow "1"
                           (start None)))
    = network (start None)) /\
   (fst (retweet (answering lookup_body) (ret GuestLogin) rethrow "1" (start None))
    = throw RESOURCE_NOT_ALLOWED /\
    network (snd (retweet (answering lookup_body) (ret GuestLogin) rethrow "1"
                          (start None)))
    = network (start None)) /\
   (fst (favoriters (answering lookup_body) (ret GuestLogin) rethrow "1"
                    undefined undefined (start None))
    = throw RESOURCE_NOT_ALLOWED /\
    network (snd (favoriters (answering lookup_body) (ret GuestLogin) rethrow "1"
                             undefined undefined (start None)))
    = network (start None)) /\
   (fst (retweeters (answering lookup_body) (ret GuestLogin) rethrow "1"
                    undefined undefined (start None))
    = throw RESOURCE_NOT_ALLOWED /\
    network (snd (retweeters (answering lookup_body) (ret GuestLogin) rethrow "1"
                             undefined undefined (start None)))
    = network (start None))).
Proof.
  split; [reflexivity|].
  apply (guest_cannot_write (answering lookup_body) (ret GuestLogin) rethrow
                            "hi" "1" undefined undefined (start None)).
  reflexivity.
Defined.

(** * The stored credential *)

Lemma post_this
  (axios : AxiosRequestConfig -> result JSON) (g : result AuthCredential)
  (h : Exn -> result unit) (type : EResourceType) (args : Args) (st : State) :
  this (snd (post axios g h type args st)) = after_request g (this st) type.
Proof.
  destruct (post axios g h type args st) as [r st'] eqn:Hrun.
  cbn [fst snd]. unfold post in Hrun. unfold andThen at 1 in Hrun.
  destruct (log (POST type args) st) as [r0 st0] eqn:Hlog.
  unfold log in Hlog. inversion Hlog as [[Hr Hst]].
  assert (Hthis : this st0 = this st) by (now subst st0).
  clear Hlog Hst. subst r0. unfold ret in Hrun.
  unfold andThen at 1 in Hrun.
  pose proof (request_this axios g h (new_Request type args) st0) as H1.
  destruct (request axios g h (new_Request type args) st0)
    as [[e|data] st1]; cbn [fst snd endpoint] in H1; rewrite Hthis in H1;
    unfold pure in Hrun; inversion Hrun; subst; exact H1.
Qed.

Lemma settled_stored
  (axios : AxiosRequestConfig -> result JSON) (g : result AuthCredential)
  (h : Exn -> result unit) (i : Invocation) (st : State) (c : AuthCredential) :
  cred (this st) = Some c ->
  this (settled axios g h i st) = this st /\
  network (settled axios g h i st) = sent (this st) c [i] ++ network st.
Proof.
  intros Hc.
  assert (Hthis : forall type, after_request g (this st) type = this st).
  { intros type. unfold after_request. rewrite Hc. now destruct (denied _ _). }
  assert (Hnet : forall type args,
             issued g (this st) (new_Request type args)
             = sent (this st) c [Fetching type args]).
  { intros type args. unfold issued, sent. cbn. rewrite Hc.
    destruct (denied (this st) type); reflexivity. }
  destruct i as [type args|type args]; cbn [settled].
  - rewrite fetch_this, Hthis. split; [reflexivity|].
    destruct (fetch_run axios g h type args st) as (_ & ->). now rewrite Hnet.
  - rewrite post_this, Hthis. split; [reflexivity|].
    destruct (post_run axios g h type args st) as (_ & ->). now rewrite Hnet.
Qed.

Lemma in_turn_stored
  (axios : AxiosRequestConfig -> result JSON) (g : result AuthCredential)
  (h : Exn -> result unit) (calls : list Invocation) (st : State)
  (c : AuthCredential) :
  cred (this st) = Some c ->
  this (in_turn axios g h calls st) = this st /\
  network (in_turn axios g h calls st) = sent (this st) c calls ++ network st.
Proof.
  revert st. induction calls as [|i calls IH]; intros st Hc; [now split|].
  destruct (settled_stored axios g h i st c Hc) as (Hthis & Hnet).
  assert (Hc' : cred (this (settled axios g h i st)) = Some c)
    by (now rewrite Hthis).
  destruct (IH _ Hc') as (IHthis & IHnet).
  change (in_turn axios g h (i :: calls) st)
    with (in_turn axios g h calls (settled axios g h i st)).
  rewrite IHthis, IHnet, Hthis, Hnet. split; [reflexivity|].
  unfold sent. cbn [rev app]. rewrite flat_map_app, <- app_assoc. reflexivity.
Qed.

(** X14: a guest login that succeeded is not repeated by calls made one
    after the other.  After a [fetch] on an instance without credential,
    for a kind that passes the check and with a guest login that succeeds,
    the credential is stored; and whatever [fetch] and [post] calls follow,
    each awaited before the next is made, and whatever the transport, the
    error handler and the guest login would then answer, the instance stays
    as it is, no further guest login is made, and each call that passes the
    check sends exactly one HTTP call, with the stored credential. *)
Theorem guest_login_not_repeated
  (axios axios' : AxiosRequestConfig -> result JSON)
  (g g' : result AuthCredential) (h h' : Exn -> result unit)
  (type : EResourceType) (args : Args) (st : State) (c : AuthCredential)
  (later : list Invocation) :
  denied (this st) type = false ->
  cred (this st) = None ->
  g = ret c ->
  this (snd (fetch axios g h type args st)) = with_cred (this st) c /\
  network (snd (fetch axios g h type args st))
  = [HttpCall {| config := new_Request type args; headers := c |}; GuestLoginCall]
    ++ network st /\
  this (in_turn axios' g' h' later (snd (fetch axios g h type args st)))
  = with_cred (this st) c /\
  network (in_turn axios' g' h' later (snd (fetch axios g h type args st)))
  = sent (this st) c later ++ network (snd (fetch axios g h type args st)).
Proof.
  intros Hd Hc Hg.
  assert (Hthis : this (snd (fetch axios g h type args st)) = with_cred (this st) c).
  { rewrite fetch_this. unfold after_request. now rewrite Hd, Hc, Hg. }
  split; [exact Hthis|]. split.
  { destruct (fetch_run axios g h type args st) as (_ & ->).
    unfold issued. cbn [endpoint]. now rewrite Hd, Hc, Hg. }
  assert (Hstored : cred (this (snd (fetch axios g h type args st))) = Some c)
    by (now rewrite Hthis).
  destruct (in_turn_stored axios' g' h' later _ c Hstored) as (-> & ->).
  rewrite Hthis. split; reflexivity.
Qed.

Lemma guest_login_not_repeated_witness :
  denied (this (start None)) TWEET_DETAILS = false /\
  cred (this (start None)) = None /\
  ret GuestLogin = ret GuestLogin /\
  this (snd (fetch (answering lookup_body) (ret GuestLogin) rethrow
                   TWEET_DETAILS [] (start None)))
  = with_cred (this (start None)) GuestLogin /\
  network (snd (fetch (answering lookup_body) (ret GuestLogin) rethrow
                      TWEET_DETAILS [] (start None)))
  = [HttpCall {| config := new_Request TWEET_DETAILS []; headers := GuestLogin |};
     GuestLoginCall] /\
  this (in_turn (rejecting (TransportError 500)) no_guest_login classifying
                [Fetching USER_TWEETS []; Posting CREATE_TWEET [];
                 Fetching TWEET_DETAILS []]
                (snd (fetch (answering lookup_body) (ret GuestLogin) rethrow
                            TWEET_DETAILS [] (start None))))
  = with_cred (this (start None)) GuestLogin /\
  network (in_turn (rejecting (TransportError 500)) no_guest_login classifying
                   [Fetching USER_TWEETS []; Posting CREATE_TWEET [];
                    Fetching TWEET_DETAILS []]
                   (snd (fetch (answering lookup_body) (ret GuestLogin) rethrow
                               TWEET_DETAILS [] (start None))))
  = [HttpCall {| config := new_Request TWEET_DETAILS []; headers := GuestLogin |};
     HttpCall {| config := new_Request USER_TWEETS []; headers := GuestLogin |};
     HttpCall {| config := new_Request TWEET_DETAILS []; headers := GuestLogin |};
     GuestLoginCall].
Proof.
  repeat (split; [reflexivity|]).
  apply (guest_login_not_repeated
           (answering lookup_body) (rejecting (TransportError 500))
           (ret GuestLogin) no_guest_login rethrow classifying
           TWEET_DETAILS [] (start None) GuestLogin
           [Fetching USER_TWEETS []; Posting CREATE_TWEET [];
            Fetching TWEET_DETAILS []]);
    reflexivity.
Defined.

(** * A [null] in the body *)

Lemma null_raises (key value : string) (T : JSON) :
  existsb is_null (nodes T) = true ->
  findByFilter T key value = throw TypeError.
Proof.
  intros H. rewrite (findByFilter_searched key value). unfold searched.
  assert (Hr : existsb (raises key value) (nodes T) = true).
  { apply existsb_exists in H as (n & Hin & Hn). apply existsb_exists.
    exists n. split; [exact Hin|]. destruct n; try discriminate. reflexivity. }
  now rewrite Hr.
Qed.

(** C2: a [null] anywhere in the response body makes extraction throw a
    [TypeError], for every resource kind, and [fetch] with it: no cursor
    reaches the caller, also when the body holds a fragment whose
    [cursorType] equals ["Bottom"]. *)
Theorem next_cursor_null_body
  (axios : AxiosRequestConfig -> result JSON) (g : result AuthCredential)
  (h : Exn -> result unit) (type : EResourceType) (args : Args) (st : State)
  (c : AuthCredential) (data : JSON) :
  existsb is_null (nodes data) = true ->
  denied (this st) type = false ->
  credential g (this st) = ret c ->
  axios {| config := new_Request type args; headers := c |} = ret data ->
  extractData data type = throw TypeError /\
  fst (fetch axios g h type args st) = throw TypeError.
Proof.
  intros Hn Hd Hc Ha.
  assert (He : extractData data type = throw TypeError).
  { rewrite extractData_parts. unfold fragments.
    destruct (entity_tag type) as [tag|];
      [now rewrite (null_raises "__typename" tag data Hn)|].
    destruct (container type) as [[tag results]|];
      [now rewrite (null_raises "__typename" tag data Hn)|].
    cbn [bind ret]. now rewrite (null_raises "cursorType" "Bottom" data Hn). }
  split; [exact He|].
  destruct (fetch_run axios g h type args st) as (-> & _).
  unfold fetched, respond. rewrite Hd, Hc. cbn [bind ret]. rewrite Ha.
  cbn [bind ret]. now rewrite He.
Qed.

Lemma next_cursor_null_body_witness :
  bottom_cursors null_cursor_body
  = [JObject [("cursorType", JString "Bottom"); ("value", JString "x")]] /\
  existsb is_null (nodes null_cursor_body) = true /\
  denied (this user_instance) USER_LIKES = false /\
  credential no_guest_login (this user_instance) = ret (UserCredential "a2V5") /\
  answering null_cursor_body
            {| config := new_Request USER_LIKES [];
               headers := UserCredential "a2V5" |}
  = ret null_cursor_body /\
  extractData null_cursor_body USER_LIKES = throw TypeError /\
  fst (fetch (answering null_cursor_body) no_guest_login rethrow USER_LIKES []
             user_instance)
  = throw TypeError.
Proof.
  repeat (split; [reflexivity|]).
  apply (next_cursor_null_body (answering null_cursor_body) no_guest_login rethrow
                               USER_LIKES [] user_instance
                               (UserCredential "a2V5") null_cursor_body);
    reflexivity.
Defined.
